(** * Take Command: the job lifecycle of app.py

    A shallow embedding of the job store and of the job lifecycle
    operations of [app.py] (load_jobs, save_jobs, create_job,
    get_job_status, generate_colab_links, mark_step_complete,
    download_result), followed by the properties of the specification.

    Modelling choices.
    - Python dictionaries keep insertion order, and [json.dump] and
      [json.load] keep it too, so a dictionary is an association list
      updated in place ([Dict.set]).
    - A job record is typed: it has every key that create_job writes, and
      current_step is a natural number (it starts at 0 and is only ever
      incremented).
    - Python strings are modelled by byte strings (UTF-8); [lower] and
      [title] are exact on ASCII text.
    - The outside world is explicit: the state of JOBS_FILE, the paths for
      which os.path.exists answers true, and the list of writes made so
      far.  Values drawn from the environment (the uuid, the clock) are
      arguments of the operation that draws them.
    - Operations live in a state and exception monad.  Reading JOBS_FILE can
      fail (missing, unreadable, not JSON); writes are taken on a file
      system that accepts them.
    - create_job draws its id from uuid4 and stores the job under it without
      looking whether the id is taken.  Statements that follow one job
      through later requests say so when they need those requests not to draw
      its id again ([draws], [never_draws]). *)

From Stdlib Require Import String Ascii List Bool Arith Lia DecimalString.
Import ListNotations.
Open Scope string_scope.

(** ** Python dictionaries with string keys *)

Module Dict.

Section WithValue.
Context {V : Type}.

Definition t := list (string * V).

Definition empty : t := [].

(** [d.get(k)], None when the key is absent. *)
Fixpoint get (d : t) (k : string) : option V :=
  match d with
  | [] => None
  | (k', v) :: d' => if String.eqb k k' then Some v else get d' k
  end.

(** [k in d] *)
Definition mem (d : t) (k : string) : bool :=
  match get d k with Some _ => true | None => false end.

(** [d.get(k, default)] *)
Definition get_default (d : t) (k : string) (default : V) : V :=
  match get d k with Some v => v | None => default end.

(** [d[k] = v]: an existing key keeps its place, a new key goes last. *)
Fixpoint set (d : t) (k : string) (v : V) : t :=
  match d with
  | [] => [(k, v)]
  | (k', v') :: d' =>
      if String.eqb k k' then (k, v) :: d' else (k', v') :: set d' k v
  end.

End WithValue.

Arguments t : clear implicits.

End Dict.

(** ** String helpers of the Python runtime *)

Definition nl : string := String (ascii_of_nat 10) EmptyString.
Definition dquote : string := String (ascii_of_nat 34) EmptyString.

(** [str(n)] for a natural number. *)
Definition str_of_nat (n : nat) : string := NilZero.string_of_uint (Nat.to_uint n).

(** A Python string is falsy exactly when it is empty. *)
Definition nonempty (s : string) : bool :=
  match s with EmptyString => false | String _ _ => true end.

Definition is_upper (c : ascii) : bool :=
  let n := nat_of_ascii c in (65 <=? n)%nat && (n <=? 90)%nat.
Definition is_lower (c : ascii) : bool :=
  let n := nat_of_ascii c in (97 <=? n)%nat && (n <=? 122)%nat.
Definition to_lower (c : ascii) : ascii :=
  if is_upper c then ascii_of_nat (nat_of_ascii c + 32) else c.
Definition to_upper (c : ascii) : ascii :=
  if is_lower c then ascii_of_nat (nat_of_ascii c - 32) else c.

Fixpoint map_string (f : ascii -> ascii) (s : string) : string :=
  match s with
  | EmptyString => EmptyString
  | String c s' => String (f c) (map_string f s')
  end.

(** [s.lower()] *)
Definition lower (s : string) : string := map_string to_lower s.

(** [s.replace(" ", "_")] *)
Definition replace_space (s : string) : string :=
  map_string (fun c => if Ascii.eqb c " "%char then "_"%char else c) s.

(** [s.title()]: a cased character is upper-cased after an uncased one and
    lower-cased after a cased one. *)
Fixpoint title_from (previous_is_cased : bool) (s : string) : string :=
  match s with
  | EmptyString => EmptyString
  | String c s' =>
      if is_lower c then
        String (if previous_is_cased then c else to_upper c) (title_from true s')
      else if is_upper c then
        String (if previous_is_cased then to_lower c else c) (title_from true s')
      else String c (title_from false s')
  end.
Definition title (s : string) : string := title_from false s.

(** [sep.join(items)] *)
Definition join (sep : string) (items : list string) : string :=
  String.concat sep items.

(** [os.path.join(a, b)] on a POSIX system. *)
Definition ends_with_slash (a : string) : bool :=
  match String.get (String.length a - 1) a with
  | Some c => Ascii.eqb c "/"%char
  | None => false
  end.
Definition path_join (a b : string) : string :=
  match b with
  | String "/"%char _ => b
  | _ => if negb (nonempty a) || ends_with_slash a then a ++ b else a ++ "/" ++ b
  end.

(** [os.path.splitext(p)[1]] on a POSIX system: the text from the last dot
    of the last path component, unless only dots come before it there. *)
Fixpoint rfind_from (c : ascii) (s : string) (i : nat) (last : option nat) : option nat :=
  match s with
  | EmptyString => last
  | String a s' => rfind_from c s' (S i) (if Ascii.eqb a c then Some i else last)
  end.
Definition rfind (c : ascii) (s : string) : option nat := rfind_from c s 0 None.

Fixpoint only_dots (s : string) : bool :=
  match s with
  | EmptyString => true
  | String c s' => Ascii.eqb c "."%char && only_dots s'
  end.

Definition splitext_ext (p : string) : string :=
  let filenameIndex := match rfind "/"%char p with Some i => S i | None => 0 end in
  match rfind "."%char p with
  | Some dotIndex =>
      if (filenameIndex <=? dotIndex)%nat
         && negb (only_dots (String.substring filenameIndex (dotIndex - filenameIndex) p))
      then String.substring dotIndex (String.length p - dotIndex) p
      else EmptyString
  | None => EmptyString
  end.

(** ** Configuration *)

Definition JOBS_FILE : string := "jobs.json".
Definition OUTPUTS_DIR : string := "outputs".
Definition GITHUB_USERNAME : string := "livinghappy247".
Definition GITHUB_REPO : string := "take-command".

(** ** The job record *)

Record Files := mkFiles { input : string; current : string }.

Record Parameters := mkParameters {
  voice_text : string;
  emotion : string;
  enhancement_type : string
}.

Record Job := mkJob {
  id : string;
  created : string;
  status : string;
  current_step : nat;
  pipeline : list string;
  files : Files;
  parameters : Parameters;
  step_outputs : Dict.t string;
  logs : list string
}.

Definition Jobs := Dict.t Job.

(** In-place updates of one key of a job. *)
Definition set_status (job : Job) (s : string) : Job :=
  mkJob (id job) (created job) s (current_step job) (pipeline job) (files job)
        (parameters job) (step_outputs job) (logs job).
Definition set_current_step (job : Job) (n : nat) : Job :=
  mkJob (id job) (created job) (status job) n (pipeline job) (files job)
        (parameters job) (step_outputs job) (logs job).
Definition set_current (job : Job) (f : string) : Job :=
  mkJob (id job) (created job) (status job) (current_step job) (pipeline job)
        (mkFiles (input (files job)) f) (parameters job) (step_outputs job) (logs job).
Definition set_step_output (job : Job) (step_name out : string) : Job :=
  mkJob (id job) (created job) (status job) (current_step job) (pipeline job) (files job)
        (parameters job) (Dict.set (step_outputs job) step_name out) (logs job).
Definition append_log (job : Job) (line : string) : Job :=
  mkJob (id job) (created job) (status job) (current_step job) (pipeline job) (files job)
        (parameters job) (step_outputs job) (logs job ++ [line])%list.

(** ** The outside world *)

(** What JOBS_FILE holds: text that json.load rejects, or the encoding of a
    mapping of jobs. *)
Inductive file_text :=
| NotJson
| Json (jobs : Jobs).

Record disk_file := mkDiskFile { readable : bool; text : file_text }.

(** The writes an operation makes. *)
Inductive event :=
| SaveJobs (jobs : Jobs)
| Copy2 (src dst : string)
| MakeDirs (path : string).

Record world := mkWorld {
  jobs_file : option disk_file;   (* None: JOBS_FILE does not exist *)
  existing : list string;         (* the other paths that exist *)
  trace : list event              (* the writes made so far, oldest first *)
}.

(** [os.path.exists(p)] for a path other than JOBS_FILE. *)
Definition path_exists (w : world) (p : string) : bool :=
  existsb (String.eqb p) (existing w).

(** ** Exceptions and the monad of operations *)

Inductive exn :=
| FileNotFoundError
| PermissionError
| JSONDecodeError
| TypeError
| IndexError.

Inductive outcome (A : Type) :=
| Returned (a : A)
| Raised (e : exn).
Arguments Returned {A} a.
Arguments Raised {A} e.

Definition M (A : Type) : Type := world -> outcome A * world.

Definition ret {A} (a : A) : M A := fun w => (Returned a, w).
Definition raise {A} (e : exn) : M A := fun w => (Raised e, w).
Definition bind {A B} (m : M A) (k : A -> M B) : M B :=
  fun w => match m w with
           | (Returned a, w') => k a w'
           | (Raised e, w') => (Raised e, w')
           end.
(** [try: body  except Exception: handler] *)
Definition try_except {A} (body : M A) (handler : exn -> M A) : M A :=
  fun w => match body w with
           | (Returned a, w') => (Returned a, w')
           | (Raised e, w') => handler e w'
           end.

Notation "x <- m ;; k" := (bind m (fun x => k))
  (at level 61, m at next level, right associativity).
Notation "m ;;; k" := (bind m (fun _ => k))
  (at level 61, right associativity).

(** [items[i]] on a list, with a natural index. *)
Definition index {A} (items : list A) (i : nat) : M A :=
  match nth_error items i with
  | Some a => ret a
  | None => raise IndexError
  end.

(** ** Job management functions *)

(** [open(JOBS_FILE, "r")] followed by reading the text. *)
Definition open_read : M file_text :=
  fun w => match jobs_file w with
           | None => (Raised FileNotFoundError, w)
           | Some f => if readable f then (Returned (text f), w)
                       else (Raised PermissionError, w)
           end.

(** [json.load(f)] *)
Definition json_load (t : file_text) : M Jobs :=
  match t with
  | NotJson => raise JSONDecodeError
  | Json jobs => ret jobs
  end.

Definition load_jobs : M Jobs :=
  try_except (t <- open_read ;; json_load t) (fun _ => ret Dict.empty).

(** [open(JOBS_FILE, "w")] truncates or creates the file; an existing file
    keeps its permissions. *)
Definition save_jobs (jobs : Jobs) : M unit :=
  fun w =>
    let r := match jobs_file w with Some f => readable f | None => true end in
    (Returned tt,
     mkWorld (Some (mkDiskFile r (Json jobs))) (existing w) (trace w ++ [SaveJobs jobs])%list).

(** [shutil.copy2(src, dst)] *)
Definition copy2 (src dst : string) : M unit :=
  fun w =>
    if path_exists w src
    then (Returned tt, mkWorld (jobs_file w) (dst :: existing w) (trace w ++ [Copy2 src dst])%list)
    else (Raised FileNotFoundError, w).

(** [os.makedirs(p)] *)
Definition makedirs (p : string) : M unit :=
  fun w => (Returned tt, mkWorld (jobs_file w) (p :: existing w) (trace w ++ [MakeDirs p])%list).

(** The module-level initialisation. *)
Definition initialize : M unit :=
  (fun w => match jobs_file w with
            | None => save_jobs Dict.empty w
            | Some _ => (Returned tt, w)
            end) ;;;
  (fun w => if path_exists w OUTPUTS_DIR then (Returned tt, w)
            else makedirs OUTPUTS_DIR w).

(** The jobs an operation sees when it starts in [w]. *)
Definition store (w : world) : Jobs :=
  match fst (load_jobs w) with
  | Returned jobs => jobs
  | Raised _ => Dict.empty
  end.

(** ** Job lifecycle operations *)

(** The value gradio hands over for the upload: nothing, or a path that may
    carry a [name] attribute. *)
Record upload := mkUpload { path : string; name : option string }.

(** Truth value of the upload: None and the empty path are falsy. *)
Definition truthy (uploaded_file : option upload) : bool :=
  match uploaded_file with
  | None => false
  | Some u => nonempty (path u)
  end.

Definition msg_upload_first : string := "❌ Please upload a file first!".
Definition msg_not_found : string := "❌ Job not found!".
Definition msg_all_steps_completed : string := "✅ All steps completed for this job!".
Definition msg_already_completed : string := "✅ Job already completed!".

(** [uuid4] is the text of uuid.uuid4(), [timestamp] the clock read as
    %Y%m%d_%H%M%S and [now] the clock read as %H:%M:%S. *)
Definition create_job (uploaded_file : option upload) (pipeline_steps : option (list string))
    (voice_text emotion enhancement_type : string)
    (uuid4 timestamp now : string) : M string :=
  match uploaded_file with
  | None => ret msg_upload_first
  | Some u =>
    if negb (nonempty (path u)) then ret msg_upload_first else
    let job_id := String.substring 0 8 uuid4 in
    (* Save uploaded file *)
    let file_extension :=
      match name u with Some n => splitext_ext n | None => EmptyString end in
    let saved_filename := job_id ++ "_" ++ timestamp ++ "_input" ++ file_extension in
    let saved_path := path_join OUTPUTS_DIR saved_filename in
    copy2 (path u) saved_path ;;;
    (* Create job entry *)
    jobs <- load_jobs ;;
    let jobs := Dict.set jobs job_id
      (mkJob job_id timestamp "ready" 0
             (match pipeline_steps with Some ((_ :: _) as steps) => steps | _ => [] end)
             (mkFiles saved_filename saved_filename)
             (mkParameters voice_text emotion enhancement_type)
             Dict.empty
             [now ++ " - Job created"]) in
    save_jobs jobs ;;;
    match pipeline_steps with
    | None => raise TypeError
    | Some steps =>
        ret ("✅ Job " ++ job_id ++ " created successfully!" ++ nl
             ++ "File: " ++ match name u with Some n => n | None => "Uploaded File" end ++ nl
             ++ "Pipeline: " ++ join " → " steps)
    end
  end.

Definition status_emoji : Dict.t string :=
  [("ready", "⏳"); ("processing", "🔄"); ("completed", "✅"); ("error", "❌");
   ("waiting", "⏸️")].

Definition status_line (entry : string * Job) : string :=
  let (job_id, job) := entry in
  Dict.get_default status_emoji (status job) "❓" ++ " **Job " ++ job_id ++ "**" ++ nl
  ++ "   Status: " ++ title (status job) ++ nl
  ++ "   Progress: " ++ str_of_nat (current_step job) ++ "/"
  ++ str_of_nat (length (pipeline job)) ++ " steps" ++ nl
  ++ "   Created: " ++ created job ++ nl.

Definition get_job_status : M string :=
  jobs <- load_jobs ;;
  match jobs with
  | [] => ret "No jobs found."
  | _ => ret (join nl (map status_line jobs))
  end.

Definition notebook_map : Dict.t string :=
  [("Voice Cloning & TTS", "voice_clone.ipynb");
   ("Lip Sync & Emotions", "lip_sync.ipynb");
   ("Split & Merge", "split_merge.ipynb");
   ("Audio Enhancement", "audio_enhance.ipynb");
   ("Video Enhancement", "video_enhance.ipynb")].

Definition notebook_file_of (step_name : string) : string :=
  Dict.get_default notebook_map step_name "general_process.ipynb".

Definition colab_url_of (job_id step_name : string) (job : Job) : string :=
  let notebook_file := notebook_file_of step_name in
  let params : Dict.t string :=
    [("job_id", job_id);
     ("step", replace_space (lower step_name));
     ("input_file", current (files job));
     ("voice_text", voice_text (parameters job));
     ("emotion", emotion (parameters job));
     ("enhancement_type", enhancement_type (parameters job))] in
  let base_url :=
    "https://colab.research.google.com/github/"
    ++ GITHUB_USERNAME ++ "/" ++ GITHUB_REPO ++ "/blob/main/notebooks/" ++ notebook_file in
  let param_string := join "&" (map (fun kv => fst kv ++ "=" ++ snd kv) params) in
  base_url ++ "?" ++ param_string.

Definition instructions_of (current_step : nat) (step_name notebook_file colab_url
    current_input : string) : string :=
  nl ++ "🚀 **Ready for Step " ++ str_of_nat (current_step + 1) ++ ": " ++ step_name ++ "**" ++ nl
  ++ nl
  ++ "**Colab Link:** [Open " ++ notebook_file ++ " in Colab](" ++ colab_url ++ ")" ++ nl
  ++ nl
  ++ "**Instructions:**" ++ nl
  ++ "1. Click the link above to open the Colab notebook" ++ nl
  ++ "2. Ensure GPU runtime is enabled (Runtime → Change runtime type → GPU)" ++ nl
  ++ "3. Run all cells in order" ++ nl
  ++ "4. The notebook will automatically process your file" ++ nl
  ++ "5. When complete, return here and click " ++ dquote ++ "Check Progress" ++ dquote ++ nl
  ++ nl
  ++ "**Current Input File:** " ++ current_input ++ nl.

(** [now] is the clock read as %H:%M:%S. *)
Definition generate_colab_links (job_id : string) (now : string) : M string :=
  jobs <- load_jobs ;;
  match Dict.get jobs job_id with
  | None => ret msg_not_found
  | Some job =>
    let current_step0 := current_step job in
    let pipeline0 := pipeline job in
    if (length pipeline0 <=? current_step0)%nat then ret msg_all_steps_completed else
    step_name <- match pipeline0 with
                 | [] => ret "General"
                 | _ => index pipeline0 current_step0
                 end ;;
    let notebook_file := notebook_file_of step_name in
    let colab_url := colab_url_of job_id step_name job in
    (* Update job status *)
    let job := set_status job "waiting" in
    let job := append_log job (now ++ " - Colab link generated for " ++ step_name) in
    save_jobs (Dict.set jobs job_id job) ;;;
    ret (instructions_of current_step0 step_name notebook_file colab_url (current (files job)))
  end.

(** The name recorded for a step that reports no output. *)
Definition placeholder (job_id : string) (current_step : nat) : string :=
  job_id ++ "_step_" ++ str_of_nat current_step ++ "_output".

(** [now1] and [now2] are the two clock readings, as %H:%M:%S. *)
Definition mark_step_complete (job_id output_filename : string) (now1 now2 : string)
    : M string :=
  jobs <- load_jobs ;;
  match Dict.get jobs job_id with
  | None => ret msg_not_found
  | Some job =>
    let current_step0 := current_step job in
    let pipeline0 := pipeline job in
    if (length pipeline0 <=? current_step0)%nat then ret msg_already_completed else
    (* Mark step complete *)
    step_name <- index pipeline0 current_step0 ;;
    let job := set_step_output job step_name
                 (if nonempty output_filename then output_filename
                  else placeholder job_id current_step0) in
    let job := set_current_step job (current_step job + 1) in
    let job := append_log job (now1 ++ " - Completed " ++ step_name) in
    let job := if nonempty output_filename then set_current job output_filename else job in
    (* Check if all steps complete *)
    let job :=
      if (length pipeline0 <=? current_step job)%nat
      then append_log (set_status job "completed") (now2 ++ " - All steps completed!")
      else set_status job "ready" in
    save_jobs (Dict.set jobs job_id job) ;;;
    if String.eqb (status job) "completed"
    then ret ("🎉 Job " ++ job_id ++ " completed successfully!" ++ nl
              ++ "Final output: " ++ current (files job))
    else
      next_step <- index pipeline0 (current_step job) ;;
      ret ("✅ Step completed! Next: " ++ next_step ++ nl
           ++ "Click 'Generate Colab Link' to continue.")
  end.

Definition download_result (job_id : string) : M (option string) :=
  jobs <- load_jobs ;;
  match Dict.get jobs job_id with
  | None => ret None
  | Some job =>
    if negb (String.eqb (status job) "completed") then ret None else
    let output_file := path_join OUTPUTS_DIR (current (files job)) in
    fun w => if path_exists w output_file then (Returned (Some output_file), w)
             else (Returned None, w)
  end.

(** ** Sequences of requests *)

(** One request of the interface, with the values it draws from the
    environment. *)
Inductive op :=
| CreateJob (uploaded_file : option upload) (pipeline_steps : option (list string))
            (voice_text emotion enhancement_type uuid4 timestamp now : string)
| GetJobStatus
| GenerateColabLinks (job_id now : string)
| MarkStepComplete (job_id output_filename now1 now2 : string)
| DownloadResult (job_id : string).

(** What a request hands back: a text, or the optional path of download_result. *)
Inductive value :=
| Text (s : string)
| Handle (h : option string).

Definition exec (o : op) : M value :=
  match o with
  | CreateJob uploaded_file pipeline_steps voice_text emotion enhancement_type
              uuid4 timestamp now =>
      s <- create_job uploaded_file pipeline_steps voice_text emotion enhancement_type
                      uuid4 timestamp now ;;
      ret (Text s)
  | GetJobStatus => s <- get_job_status ;; ret (Text s)
  | GenerateColabLinks job_id now => s <- generate_colab_links job_id now ;; ret (Text s)
  | MarkStepComplete job_id output_filename now1 now2 =>
      s <- mark_step_complete job_id output_filename now1 now2 ;; ret (Text s)
  | DownloadResult job_id => h <- download_result job_id ;; ret (Handle h)
  end.

(** The requests are served one after the other; a request that raises
    leaves the world as it was when it raised. *)
Fixpoint run (ops : list op) (w : world) : world :=
  match ops with
  | [] => w
  | o :: ops' => run ops' (snd (exec o w))
  end.

(** The job id that a request draws, for a create_job that gets as far as
    drawing one. *)
Definition draws (o : op) (job_id : string) : bool :=
  match o with
  | CreateJob uploaded_file _ _ _ _ uuid4 _ _ =>
      truthy uploaded_file && String.eqb (String.substring 0 8 uuid4) job_id
  | _ => false
  end.

(** A mark_step_complete request for [job_id] that gets past both early
    returns when served in [w]. *)
Definition advances (job_id : string) (o : op) (w : world) : bool :=
  match o with
  | MarkStepComplete job_id' _ _ _ =>
      String.eqb job_id' job_id &&
      match Dict.get (store w) job_id with
      | Some job => (current_step job <? length (pipeline job))%nat
      | None => false
      end
  | _ => false
  end.

(** The output name that a request reports, empty when it reports none. *)
Definition output_of (o : op) : string :=
  match o with
  | MarkStepComplete _ output_filename _ _ => output_filename
  | _ => EmptyString
  end.

(** The output names reported by the requests of [ops] that advance [job_id]
    when [ops] is served from [w], oldest first. *)
Fixpoint advance_outputs (job_id : string) (ops : list op) (w : world) : list string :=
  match ops with
  | [] => []
  | o :: ops' =>
      let rest := advance_outputs job_id ops' (snd (exec o w)) in
      if advances job_id o w then output_of o :: rest else rest
  end.

(** The last non-empty name of [names], or [default]. *)
Fixpoint last_nonempty (names : list string) (default : string) : string :=
  match names with
  | [] => default
  | n :: names' => last_nonempty names' (if nonempty n then n else default)
  end.

(** ** The records that the operations write *)

(** JOBS_FILE can be read back after a write: it is missing (a write creates
    it readable) or readable. *)
Definition visible (w : world) : bool :=
  match jobs_file w with Some f => readable f | None => true end.

(** The entry that create_job stores. *)
Definition new_job (u : upload) (pipeline_steps : option (list string))
    (voice_text emotion enhancement_type uuid4 timestamp now : string) : Job :=
  let job_id := String.substring 0 8 uuid4 in
  let saved_filename :=
    job_id ++ "_" ++ timestamp ++ "_input"
    ++ match name u with Some n => splitext_ext n | None => EmptyString end in
  mkJob job_id timestamp "ready" 0
        (match pipeline_steps with Some steps => steps | None => [] end)
        (mkFiles saved_filename saved_filename)
        (mkParameters voice_text emotion enhancement_type)
        Dict.empty [now ++ " - Job created"].

(** The job as generate_colab_links leaves it. *)
Definition waiting_job (job : Job) (now step_name : string) : Job :=
  mkJob (id job) (created job) "waiting" (current_step job) (pipeline job) (files job)
        (parameters job) (step_outputs job)
        (List.app (logs job) [now ++ " - Colab link generated for " ++ step_name]).

(** The job as mark_step_complete leaves it. *)
Definition advanced_job (job_id output_filename now1 now2 step_name : string) (job : Job)
    : Job :=
  let last_step := (length (pipeline job) <=? current_step job + 1)%nat in
  mkJob (id job) (created job)
        (if last_step then "completed" else "ready")
        (current_step job + 1)
        (pipeline job)
        (mkFiles (input (files job))
                 (if nonempty output_filename then output_filename else current (files job)))
        (parameters job)
        (Dict.set (step_outputs job) step_name
                  (if nonempty output_filename then output_filename
                   else placeholder job_id (current_step job)))
        (let logs1 := List.app (logs job) [now1 ++ " - Completed " ++ step_name] in
         if last_step then List.app logs1 [now2 ++ " - All steps completed!"] else logs1).

(** What a request does to a job that it does not create anew: it advances
    it, or leaves it alone, or puts it in the waiting status. *)
Inductive job_step (job_id : string) (o : op) (job : Job) : bool -> Job -> Prop :=
| job_advanced now1 now2 step_name :
    nth_error (pipeline job) (current_step job) = Some step_name ->
    job_step job_id o job true
             (advanced_job job_id (output_of o) now1 now2 step_name job)
| job_untouched :
    job_step job_id o job false job
| job_waiting now step_name :
    nth_error (pipeline job) (current_step job) = Some step_name ->
    job_step job_id o job false (waiting_job job now step_name).

(** ** Invariants and the table of the specification *)

(** What holds of every job the operations write: the step counter stays
    within the pipeline, a completed job has run all its steps, and a job
    with a non-empty pipeline that has run all its steps is completed. *)
Definition job_inv (job : Job) : Prop :=
  current_step job <= length (pipeline job)
  /\ (status job = "completed" -> current_step job = length (pipeline job))
  /\ (current_step job = length (pipeline job) -> pipeline job <> [] ->
      status job = "completed").

Definition store_inv (jobs : Jobs) : Prop :=
  forall job_id job, Dict.get jobs job_id = Some job -> job_inv job.

(** No request of [ops] draws [job_id] as the id of a new job. *)
Definition never_draws (job_id : string) (ops : list op) : bool :=
  forallb (fun o => negb (draws o job_id)) ops.

(** The table of the specification: the external template resource of a step
    name, with the generic resource for every other name. *)
Definition template_resource (step_name : string) : string :=
  if step_name =? "Voice Cloning & TTS" then "voice_clone"
  else if step_name =? "Lip Sync & Emotions" then "lip_sync"
  else if step_name =? "Split & Merge" then "split_merge"
  else if step_name =? "Audio Enhancement" then "audio_enhance"
  else if step_name =? "Video Enhancement" then "video_enhance"
  else "general_process".

(** ** Concrete worlds and requests *)

(** A world before the program starts: no JOBS_FILE, and an upload waiting
    in a temporary directory. *)
Definition fresh_world : world := mkWorld None ["/tmp/gradio/clip.mp4"] [].
Definition clip : upload := mkUpload "/tmp/gradio/clip.mp4" (Some "/tmp/gradio/clip.mp4").

(** The world once the module is loaded. *)
Definition initial_world : world := snd (initialize fresh_world).

(** A world whose JOBS_FILE holds text that is not JSON. *)
Definition corrupt_world : world := mkWorld (Some (mkDiskFile true NotJson)) ["outputs"] [].

(** The scenario of the specification: a job of two steps, the first
    reported without an output name, the second with one. *)
Definition scenario : list op :=
  [CreateJob (Some clip) (Some ["Audio Enhancement"; "Video Enhancement"]) "hello" "neutral"
             "basic" "a1b2c3d4-0000-4000-8000-000000000000" "20240101_120000" "12:00:00";
   MarkStepComplete "a1b2c3d4" "" "12:01:00" "12:01:01";
   MarkStepComplete "a1b2c3d4" "output.mp4" "12:02:00" "12:02:01"].

(** The world in which the job of the scenario has just been created, and
    that job. *)
Definition created_world : world := run (firstn 1 scenario) initial_world.
Definition created_job : Job :=
  mkJob "a1b2c3d4" "20240101_120000" "ready" 0 ["Audio Enhancement"; "Video Enhancement"]
        (mkFiles "a1b2c3d4_20240101_120000_input.mp4" "a1b2c3d4_20240101_120000_input.mp4")
        (mkParameters "hello" "neutral" "basic") Dict.empty ["12:00:00 - Job created"].

(** The job at the end of the scenario. *)
Definition completed_job : Job :=
  mkJob "a1b2c3d4" "20240101_120000" "completed" 2 ["Audio Enhancement"; "Video Enhancement"]
        (mkFiles "a1b2c3d4_20240101_120000_input.mp4" "output.mp4")
        (mkParameters "hello" "neutral" "basic")
        [("Audio Enhancement", "a1b2c3d4_step_0_output"); ("Video Enhancement", "output.mp4")]
        ["12:00:00 - Job created"; "12:01:00 - Completed Audio Enhancement";
         "12:02:00 - Completed Video Enhancement"; "12:02:01 - All steps completed!"].

(** A pipeline of one step, its only step reported without an output name. *)
Definition one_step_scenario : list op :=
  [CreateJob (Some clip) (Some ["Audio Enhancement"]) "hello" "neutral" "basic"
             "a1b2c3d4-0000-4000-8000-000000000000" "20240101_120000" "12:00:00";
   MarkStepComplete "a1b2c3d4" "" "12:01:00" "12:01:01"].

(** The world after create_job with an upload and an empty selection of
    steps. *)
Definition empty_pipeline_world : world :=
  snd (create_job (Some clip) (Some []) "hello" "neutral" "basic"
                  "a1b2c3d4-0000-4000-8000-000000000000" "20240101_120000" "12:00:00"
                  initial_world).

(** ** The interface *)

(** The handler of the Check Progress button:
    [lambda job_id: get_job_status() if not job_id else ...]. *)
Definition check_progress (job_id : string) : M string :=
  if negb (nonempty job_id) then get_job_status
  else ret ("Job " ++ job_id ++ " status updated.").

(** What the operator can do on the page built by create_interface, with the
    values of the input widgets and the values the handler draws from the
    environment.  The checkbox group hands over a list, the Mark Step
    Complete button hands over the job id only. *)
Inductive click :=
| ClickCreate (file_input : option upload) (pipeline_steps : list string)
              (voice_text emotion enhancement_type uuid4 timestamp now : string)
| ClickGenerateLink (job_id_input now : string)
| ClickCheckProgress (job_id_input : string)
| ClickMarkComplete (job_id_input now1 now2 : string)
| ClickRefresh
| ClickDownload (download_job_id : string)
| PageLoad.

Definition handle (c : click) : M value :=
  match c with
  | ClickCreate file_input pipeline_steps voice_text emotion enhancement_type
                uuid4 timestamp now =>
      exec (CreateJob file_input (Some pipeline_steps) voice_text emotion enhancement_type
                      uuid4 timestamp now)
  | ClickGenerateLink job_id_input now => exec (GenerateColabLinks job_id_input now)
  | ClickCheckProgress job_id_input => s <- check_progress job_id_input ;; ret (Text s)
  | ClickMarkComplete job_id_input now1 now2 =>
      exec (MarkStepComplete job_id_input EmptyString now1 now2)
  | ClickRefresh => exec GetJobStatus
  | ClickDownload download_job_id => exec (DownloadResult download_job_id)
  | PageLoad => exec GetJobStatus
  end.

Fixpoint serve (clicks : list click) (w : world) : world :=
  match clicks with
  | [] => w
  | c :: clicks' => serve clicks' (snd (handle c w))
  end.

(** ** The ways a request can change the world *)

(** A request leaves the world as it is, or create_job copies the upload and
    stores a new job, or generate_colab_links or mark_step_complete stores
    the job it was called on, changed. *)
Inductive exec_kind (o : op) (w w' : world) : Prop :=
| kind_same :
    w' = w -> exec_kind o w w'
| kind_create u pipeline_steps vt em en uuid4 timestamp now :
    o = CreateJob (Some u) pipeline_steps vt em en uuid4 timestamp now ->
    truthy (Some u) = true ->
    path_exists w (path u) = true ->
    w' = snd (save_jobs
                (Dict.set (store w) (String.substring 0 8 uuid4)
                          (new_job u pipeline_steps vt em en uuid4 timestamp now))
                (snd (copy2 (path u)
                            (path_join OUTPUTS_DIR
                               (input (files (new_job u pipeline_steps vt em en
                                                      uuid4 timestamp now))))
                            w))) ->
    exec_kind o w w'
| kind_generate job_id now job step_name :
    o = GenerateColabLinks job_id now ->
    Dict.get (store w) job_id = Some job ->
    nth_error (pipeline job) (current_step job) = Some step_name ->
    w' = snd (save_jobs (Dict.set (store w) job_id (waiting_job job now step_name)) w) ->
    exec_kind o w w'
| kind_mark job_id output_filename now1 now2 job step_name :
    o = MarkStepComplete job_id output_filename now1 now2 ->
    Dict.get (store w) job_id = Some job ->
    nth_error (pipeline job) (current_step job) = Some step_name ->
    w' = snd (save_jobs
                (Dict.set (store w) job_id
                          (advanced_job job_id output_filename now1 now2 step_name job))
                w) ->
    exec_kind o w w'.

(** The statuses that the operations write. *)
Definition written_status (s : string) : Prop :=
  s = "ready" \/ s = "waiting" \/ s = "completed".

(** The keys of step_outputs are the names of the steps already run. *)
Definition outputs_inv (job : Job) : Prop :=
  forall k, Dict.mem (step_outputs job) k = true
            <-> exists i, i < current_step job /\ nth_error (pipeline job) i = Some k.

(** Every job of the store still has its upload as current file, and that
    file is in OUTPUTS_DIR. *)
Definition upload_inv (w : world) : Prop :=
  forall job_id job,
    Dict.get (store w) job_id = Some job ->
    current (files job) = input (files job)
    /\ path_exists w (path_join OUTPUTS_DIR (input (files job))) = true.

(** A world whose JOBS_FILE holds text that is not JSON, with an upload
    waiting. *)
Definition corrupt_world_with_upload : world :=
  mkWorld (Some (mkDiskFile true NotJson)) ["/tmp/gradio/clip.mp4"; "outputs"] [].

(** A session on the page, and the job it leaves. *)
Definition page_session : list click :=
  [PageLoad;
   ClickCreate (Some clip) ["Audio Enhancement"] "hello" "neutral" "basic"
               "a1b2c3d4-0000-4000-8000-000000000000" "20240101_120000" "12:00:00";
   ClickGenerateLink "a1b2c3d4" "12:00:30";
   ClickCheckProgress "a1b2c3d4";
   ClickMarkComplete "a1b2c3d4" "12:01:00" "12:01:01";
   ClickRefresh].

Definition page_job : Job :=
  mkJob "a1b2c3d4" "20240101_120000" "completed" 1 ["Audio Enhancement"]
        (mkFiles "a1b2c3d4_20240101_120000_input.mp4" "a1b2c3d4_20240101_120000_input.mp4")
        (mkParameters "hello" "neutral" "basic")
        [("Audio Enhancement", "a1b2c3d4_step_0_output")]
        ["12:00:00 - Job created"; "12:00:30 - Colab link generated for Audio Enhancement";
         "12:01:00 - Completed Audio Enhancement"; "12:01:01 - All steps completed!"].

(** A job whose pipeline runs the same step twice, after its first report. *)
Definition repeated_step_world : world :=
  run [CreateJob (Some clip) (Some ["Audio Enhancement"; "Audio Enhancement"]) "" "neutral"
                 "basic" "0f0f0f0f-0000-4000-8000-000000000000" "20240102_090000" "09:00:00";
       MarkStepComplete "0f0f0f0f" "first.wav" "09:01:00" "09:01:01"]
      initial_world.

Definition repeated_step_job : Job :=
  mkJob "0f0f0f0f" "20240102_090000" "ready" 1 ["Audio Enhancement"; "Audio Enhancement"]
        (mkFiles "0f0f0f0f_20240102_090000_input.mp4" "first.wav")
        (mkParameters "" "neutral" "basic")
        [("Audio Enhancement", "first.wav")]
        ["09:00:00 - Job created"; "09:01:00 - Completed Audio Enhancement"].

(** * Properties *)

(** ** Facts about dictionaries *)

Module DictFacts.

Section WithValue.
Context {V : Type}.

Lemma get_set_eq (d : Dict.t V) (k : string) (v : V) : Dict.get (Dict.set d k v) k = Some v.
Proof.
  induction d as [|[k' v'] d IH]; simpl.
  - now rewrite String.eqb_refl.
  - destruct (String.eqb k k') eqn:E; simpl.
    + now rewrite String.eqb_refl.
    + now rewrite E.
Qed.

Lemma get_set_ne (d : Dict.t V) (k k0 : string) (v : V) :
  k0 <> k -> Dict.get (Dict.set d k v) k0 = Dict.get d k0.
Proof.
  intros Hne. induction d as [|[k' v'] d IH]; simpl.
  - destruct (String.eqb_spec k0 k); [contradiction|reflexivity].
  - destruct (String.eqb_spec k k'); simpl.
    + subst k'. destruct (String.eqb_spec k0 k); [contradiction|reflexivity].
    + now rewrite IH.
Qed.

Lemma get_set (d : Dict.t V) (k k0 : string) (v : V) :
  Dict.get (Dict.set d k v) k0 = if String.eqb k0 k then Some v else Dict.get d k0.
Proof.
  destruct (String.eqb_spec k0 k) as [->|Hne].
  - apply get_set_eq.
  - now apply get_set_ne.
Qed.

End WithValue.

End DictFacts.

(** ** Reading and writing the store *)

Lemma load_jobs_eq (w : world) : load_jobs w = (Returned (store w), w).
Proof.
  unfold store, load_jobs, try_except, bind, open_read, json_load, ret, raise.
  destruct (jobs_file w) as [[[] []]|]; reflexivity.
Qed.

Lemma store_invisible (w : world) : visible w = false -> store w = Dict.empty.
Proof.
  unfold visible, store, load_jobs, try_except, bind, open_read.
  destruct (jobs_file w) as [[[] t]|]; simpl; congruence.
Qed.

Lemma store_save (jobs : Jobs) (w : world) :
  store (snd (save_jobs jobs w)) = if visible w then jobs else Dict.empty.
Proof.
  unfold visible, store, load_jobs, try_except, bind, open_read, save_jobs; simpl.
  destruct (jobs_file w) as [[[] t]|]; reflexivity.
Qed.

Lemma visible_save (jobs : Jobs) (w : world) :
  visible (snd (save_jobs jobs w)) = visible w.
Proof. unfold visible, save_jobs; simpl. now destruct (jobs_file w). Qed.

Lemma get_store_visible (w : world) (job_id : string) (job : Job) :
  Dict.get (store w) job_id = Some job -> visible w = true.
Proof.
  intros H. destruct (visible w) eqn:E; [reflexivity|].
  rewrite (store_invisible w E) in H. discriminate.
Qed.

Lemma nth_error_step (job : Job) :
  current_step job < length (pipeline job) ->
  exists step_name, nth_error (pipeline job) (current_step job) = Some step_name.
Proof.
  intros H. destruct (nth_error (pipeline job) (current_step job)) eqn:E.
  - now exists s.
  - apply nth_error_None in E. lia.
Qed.

Lemma store_same_file (w : world) (e : list string) (t : list event) :
  store (mkWorld (jobs_file w) e t) = store w.
Proof.
  unfold store, load_jobs, try_except, bind, open_read; simpl.
  destruct (jobs_file w) as [[[] []]|]; reflexivity.
Qed.

Lemma visible_same_file (w : world) (e : list string) (t : list event) :
  visible (mkWorld (jobs_file w) e t) = visible w.
Proof. reflexivity. Qed.

Lemma bind_save {A} (jobs : Jobs) (k : M A) (w : world) :
  (save_jobs jobs ;;; k) w = k (snd (save_jobs jobs w)).
Proof. reflexivity. Qed.

Lemma bind_load {A} (k : Jobs -> M A) (w : world) :
  (jobs <- load_jobs ;; k jobs) w = k (store w) w.
Proof. unfold bind. now rewrite load_jobs_eq. Qed.

Lemma snd_ret {A} (a : A) (w : world) : snd (ret a w) = w.
Proof. reflexivity. Qed.

Lemma snd_raise {A} (e : exn) (w : world) : snd (@raise A e w) = w.
Proof. reflexivity. Qed.

(** ** What each operation does to the world *)

Lemma create_job_falsy (uploaded_file : option upload) (pipeline_steps : option (list string))
    (voice_text emotion enhancement_type uuid4 timestamp now : string) (w : world) :
  truthy uploaded_file = false ->
  create_job uploaded_file pipeline_steps voice_text emotion enhancement_type
             uuid4 timestamp now w = (Returned msg_upload_first, w).
Proof.
  unfold truthy, create_job. destruct uploaded_file as [u|]; [|reflexivity].
  intros ->. reflexivity.
Qed.

Lemma create_job_no_source (u : upload) (pipeline_steps : option (list string))
    (voice_text emotion enhancement_type uuid4 timestamp now : string) (w : world) :
  truthy (Some u) = true ->
  path_exists w (path u) = false ->
  create_job (Some u) pipeline_steps voice_text emotion enhancement_type
             uuid4 timestamp now w = (Raised FileNotFoundError, w).
Proof.
  unfold truthy, create_job. intros -> Hsrc. simpl.
  unfold bind, copy2. now rewrite Hsrc.
Qed.

Lemma create_job_world (u : upload) (pipeline_steps : option (list string))
    (voice_text emotion enhancement_type uuid4 timestamp now : string) (w : world) :
  truthy (Some u) = true ->
  path_exists w (path u) = true ->
  let job := new_job u pipeline_steps voice_text emotion enhancement_type
                     uuid4 timestamp now in
  snd (create_job (Some u) pipeline_steps voice_text emotion enhancement_type
                  uuid4 timestamp now w)
  = snd (save_jobs (Dict.set (store w) (String.substring 0 8 uuid4) job)
           (snd (copy2 (path u) (path_join OUTPUTS_DIR (input (files job))) w))).
Proof.
  intros Ht Hsrc. unfold truthy in Ht.
  unfold create_job. rewrite Ht. cbv beta iota zeta delta [negb].
  unfold bind at 1. unfold copy2. rewrite Hsrc.
  cbv beta iota. rewrite bind_load, bind_save, store_same_file.
  unfold new_job. cbn [files input snd].
  destruct pipeline_steps as [[|s steps]|]; rewrite ?snd_ret, ?snd_raise; reflexivity.
Qed.

Lemma create_job_store (u : upload) (pipeline_steps : option (list string))
    (voice_text emotion enhancement_type uuid4 timestamp now : string) (w : world) :
  truthy (Some u) = true ->
  path_exists w (path u) = true ->
  store (snd (create_job (Some u) pipeline_steps voice_text emotion enhancement_type
                         uuid4 timestamp now w))
  = if visible w
    then Dict.set (store w) (String.substring 0 8 uuid4)
           (new_job u pipeline_steps voice_text emotion enhancement_type uuid4 timestamp now)
    else Dict.empty.
Proof.
  intros Ht Hsrc. rewrite create_job_world by assumption. cbv zeta.
  rewrite store_save. unfold copy2. rewrite Hsrc. cbn [snd].
  now rewrite visible_same_file.
Qed.

Lemma get_job_status_world (w : world) : snd (get_job_status w) = w.
Proof.
  unfold get_job_status. rewrite bind_load. now destruct (store w).
Qed.

Lemma download_result_world (job_id : string) (w : world) :
  snd (download_result job_id w) = w.
Proof.
  unfold download_result. rewrite bind_load.
  destruct (Dict.get (store w) job_id) as [job|]; [|reflexivity].
  destruct (negb (String.eqb (status job) "completed")); [reflexivity|].
  now destruct (path_exists w _).
Qed.

Lemma generate_not_found (job_id now : string) (w : world) :
  Dict.get (store w) job_id = None ->
  generate_colab_links job_id now w = (Returned msg_not_found, w).
Proof.
  intros H. unfold generate_colab_links. rewrite bind_load, H. reflexivity.
Qed.

Lemma generate_all_done (job_id now : string) (w : world) (job : Job) :
  Dict.get (store w) job_id = Some job ->
  length (pipeline job) <= current_step job ->
  generate_colab_links job_id now w = (Returned msg_all_steps_completed, w).
Proof.
  intros H Hle. unfold generate_colab_links. rewrite bind_load, H.
  apply Nat.leb_le in Hle. cbv zeta. rewrite Hle. reflexivity.
Qed.

Lemma generate_step (job_id now : string) (w : world) (job : Job) (step_name : string) :
  Dict.get (store w) job_id = Some job ->
  nth_error (pipeline job) (current_step job) = Some step_name ->
  generate_colab_links job_id now w
  = (Returned (instructions_of (current_step job) step_name (notebook_file_of step_name)
                 (colab_url_of job_id step_name job) (current (files job))),
     snd (save_jobs (Dict.set (store w) job_id (waiting_job job now step_name)) w)).
Proof.
  intros H Hnth. unfold generate_colab_links. rewrite bind_load, H. cbv zeta.
  assert (Hlt : current_step job < length (pipeline job))
    by (apply nth_error_Some; congruence).
  apply Nat.leb_gt in Hlt. rewrite Hlt.
  assert (Hstep : match pipeline job with
                  | [] => ret "General"
                  | _ :: _ => index (pipeline job) (current_step job)
                  end = ret step_name).
  { destruct (pipeline job) as [|s p] eqn:Ep.
    - destruct (current_step job); discriminate.
    - unfold index. now rewrite Hnth. }
  rewrite Hstep. reflexivity.
Qed.

Lemma mark_not_found (job_id output_filename now1 now2 : string) (w : world) :
  Dict.get (store w) job_id = None ->
  mark_step_complete job_id output_filename now1 now2 w = (Returned msg_not_found, w).
Proof.
  intros H. unfold mark_step_complete. rewrite bind_load, H. reflexivity.
Qed.

Lemma mark_all_done (job_id output_filename now1 now2 : string) (w : world) (job : Job) :
  Dict.get (store w) job_id = Some job ->
  length (pipeline job) <= current_step job ->
  mark_step_complete job_id output_filename now1 now2 w = (Returned msg_already_completed, w).
Proof.
  intros H Hle. unfold mark_step_complete. rewrite bind_load, H.
  apply Nat.leb_le in Hle. cbv zeta. rewrite Hle. reflexivity.
Qed.

Lemma mark_step (job_id output_filename now1 now2 : string) (w : world) (job : Job)
    (step_name : string) :
  Dict.get (store w) job_id = Some job ->
  nth_error (pipeline job) (current_step job) = Some step_name ->
  exists msg,
    mark_step_complete job_id output_filename now1 now2 w
    = (Returned msg,
       snd (save_jobs (Dict.set (store w) job_id
              (advanced_job job_id output_filename now1 now2 step_name job)) w)).
Proof.
  intros H Hnth. unfold mark_step_complete. rewrite bind_load, H.
  assert (Hlt : current_step job < length (pipeline job))
    by (apply nth_error_Some; congruence).
  apply Nat.leb_gt in Hlt. cbv zeta. rewrite Hlt.
  unfold index at 1. rewrite Hnth. unfold bind at 1, ret at 1.
  rewrite bind_save. unfold advanced_job. clear H.
  destruct job as [jid jcreated jstatus jstep jpipeline [jinput jcurrent] jparams jouts jlogs].
  cbn [current_step pipeline] in *.
  destruct (nonempty output_filename) eqn:Eo;
    cbn [set_current append_log set_current_step set_step_output set_status
         current_step pipeline status files current input id created parameters
         step_outputs logs];
    destruct (length jpipeline <=? jstep + 1)%nat eqn:El;
    cbn [set_current append_log set_current_step set_step_output set_status
         current_step pipeline status files current input id created parameters
         step_outputs logs].
  all: try (rewrite String.eqb_refl; eexists; reflexivity).
  all: change ("ready" =? "completed") with false; cbv iota.
  all: apply Nat.leb_gt in El.
  all: destruct (nth_error jpipeline (jstep + 1)) as [next_step|] eqn:En;
    [|apply nth_error_None in En; lia].
  all: unfold bind, index; rewrite En; eexists; reflexivity.
Qed.

(** ** load_jobs *)

(** C9: when JOBS_FILE is missing, cannot be read, or holds text that is not
    valid JSON, load_jobs returns the empty mapping: the error is caught, not
    propagated, and nothing is written. *)
Theorem load_jobs_defaults_to_empty (w : world) :
  jobs_file w = None
  \/ (exists f, jobs_file w = Some f /\ (readable f = false \/ text f = NotJson)) ->
  load_jobs w = (Returned Dict.empty, w).
Proof.
  intros [Hmissing | [f [Hf Hbad]]];
    unfold load_jobs, try_except, bind, open_read.
  - rewrite Hmissing. reflexivity.
  - rewrite Hf. destruct (readable f) eqn:Er.
    + destruct Hbad as [Hr | Ht]; [discriminate|]. rewrite Ht. reflexivity.
    + reflexivity.
Qed.

Lemma load_jobs_defaults_to_empty_witness :
  load_jobs corrupt_world = (Returned Dict.empty, corrupt_world).
Proof.
  apply (load_jobs_defaults_to_empty corrupt_world).
  right. exists (mkDiskFile true NotJson). split; [reflexivity | right; reflexivity].
Defined.

(** ** create_job without an upload *)

(** C7: create_job without an uploaded file returns the input error text and
    leaves the world as it was: JOBS_FILE is not written and nothing is
    copied into OUTPUTS_DIR. *)
Theorem create_job_without_upload (uploaded_file : option upload)
    (pipeline_steps : option (list string))
    (voice_text emotion enhancement_type uuid4 timestamp now : string) (w : world) :
  truthy uploaded_file = false ->
  let result := create_job uploaded_file pipeline_steps voice_text emotion enhancement_type
                           uuid4 timestamp now w in
  fst result = Returned msg_upload_first
  /\ snd result = w
  /\ store (snd result) = store w
  /\ existing (snd result) = existing w
  /\ trace (snd result) = trace w.
Proof.
  intros Hfalsy result. subst result.
  rewrite (create_job_falsy _ _ _ _ _ _ _ _ w Hfalsy). simpl. auto.
Qed.

Lemma create_job_without_upload_witness :
  let result := create_job None (Some ["Audio Enhancement"]) "hello" "neutral" "basic"
                  "a1b2c3d4-0000-4000-8000-000000000000" "20240101_120000" "12:00:00"
                  fresh_world in
  fst result = Returned msg_upload_first
  /\ snd result = fresh_world
  /\ store (snd result) = store fresh_world
  /\ existing (snd result) = existing fresh_world
  /\ trace (snd result) = trace fresh_world.
Proof.
  apply (create_job_without_upload None). reflexivity.
Defined.

(** ** download_result *)

(** C6: download_result returns a path exactly when the job id is in the
    store, the job is completed and the file named by files.current exists
    under OUTPUTS_DIR; otherwise it returns None.  It never changes the
    world. *)
Theorem download_result_iff (job_id : string) (w : world) :
  (forall h, fst (download_result job_id w) = Returned (Some h) <->
     exists job, Dict.get (store w) job_id = Some job
                 /\ status job = "completed"
                 /\ path_exists w (path_join OUTPUTS_DIR (current (files job))) = true
                 /\ h = path_join OUTPUTS_DIR (current (files job)))
  /\ (fst (download_result job_id w) = Returned None <->
      ~ exists job, Dict.get (store w) job_id = Some job
                    /\ status job = "completed"
                    /\ path_exists w (path_join OUTPUTS_DIR (current (files job))) = true)
  /\ snd (download_result job_id w) = w.
Proof.
  split; [|split; [|apply download_result_world]].
  - intros h. unfold download_result. rewrite bind_load.
    destruct (Dict.get (store w) job_id) as [job|] eqn:Hget.
    + destruct (String.eqb_spec (status job) "completed") as [Hs|Hs]; cbn [negb].
      * destruct (path_exists w (path_join OUTPUTS_DIR (current (files job)))) eqn:He;
          cbn [fst]; split.
        -- intros [= <-]. exists job. auto.
        -- intros [job' [[= <-] [_ [_ ->]]]]. reflexivity.
        -- discriminate.
        -- intros [job' [[= <-] [_ [He' _]]]]. congruence.
      * cbn [fst ret]. split; [discriminate|].
        intros [job' [[= <-] [Hs' _]]]. contradiction.
    + cbn [fst ret]. split; [discriminate|]. intros [job' [[=] _]].
  - unfold download_result. rewrite bind_load.
    destruct (Dict.get (store w) job_id) as [job|] eqn:Hget.
    + destruct (String.eqb_spec (status job) "completed") as [Hs|Hs]; cbn [negb].
      * destruct (path_exists w (path_join OUTPUTS_DIR (current (files job)))) eqn:He;
          cbn [fst]; split.
        -- discriminate.
        -- intros Hno. exfalso. apply Hno. exists job. auto.
        -- intros _ [job' [[= <-] [_ He']]]. congruence.
        -- reflexivity.
      * cbn [fst ret]. split; [|reflexivity].
        intros _ [job' [[= <-] [Hs' _]]]. contradiction.
    + cbn [fst ret]. split; [|reflexivity]. intros _ [job' [[=] _]].
Qed.

(** ** generate_colab_links *)

(** C8: for every step name the notebook that generate_colab_links opens is
    the resource of the fixed table (as an .ipynb file), general_process for
    a name the table does not list; and whatever the name of the current
    step, generate_colab_links returns its instructions, it raises nothing. *)
Theorem notebook_resolution (step_name : string) :
  notebook_file_of step_name = template_resource step_name ++ ".ipynb"
  /\ forall (job_id now : string) (w : world) (job : Job),
       Dict.get (store w) job_id = Some job ->
       nth_error (pipeline job) (current_step job) = Some step_name ->
       fst (generate_colab_links job_id now w)
       = Returned (instructions_of (current_step job) step_name
                     (template_resource step_name ++ ".ipynb")
                     (colab_url_of job_id step_name job) (current (files job))).
Proof.
  assert (Hfile : notebook_file_of step_name = template_resource step_name ++ ".ipynb").
  { unfold notebook_file_of, template_resource, Dict.get_default, notebook_map.
    cbn [Dict.get].
    repeat match goal with
           | |- context [String.eqb step_name ?k] => destruct (String.eqb step_name k)
           end; reflexivity. }
  split; [exact Hfile|].
  intros job_id now w job Hget Hnth.
  rewrite (generate_step job_id now w job step_name Hget Hnth).
  cbn [fst]. now rewrite Hfile.
Qed.

Lemma notebook_resolution_witness :
  fst (generate_colab_links "a1b2c3d4" "12:00:30" created_world)
  = Returned (instructions_of 0 "Audio Enhancement" "audio_enhance.ipynb"
                (colab_url_of "a1b2c3d4" "Audio Enhancement" created_job)
                "a1b2c3d4_20240101_120000_input.mp4").
Proof.
  apply (proj2 (notebook_resolution "Audio Enhancement")
               "a1b2c3d4" "12:00:30" created_world created_job); reflexivity.
Defined.

(** C5: for a job of the store with steps left, generate_colab_links sets the
    status to waiting and appends one log line; every other key of the job
    (id, created, current_step, pipeline, files, parameters, step_outputs),
    every other job of the store and the files on disk stay as they were.
    The store is written once. *)
Theorem generate_colab_links_frame (job_id now : string) (w : world) (job : Job) :
  Dict.get (store w) job_id = Some job ->
  current_step job < length (pipeline job) ->
  let w' := snd (generate_colab_links job_id now w) in
  exists step_name job',
    nth_error (pipeline job) (current_step job) = Some step_name
    /\ Dict.get (store w') job_id = Some job'
    /\ status job' = "waiting"
    /\ logs job' = (logs job ++ [(now ++ " - Colab link generated for " ++ step_name)%string])%list
    /\ id job' = id job /\ created job' = created job
    /\ current_step job' = current_step job /\ pipeline job' = pipeline job
    /\ files job' = files job /\ parameters job' = parameters job
    /\ step_outputs job' = step_outputs job
    /\ store w' = Dict.set (store w) job_id job'
    /\ (forall other, other <> job_id -> Dict.get (store w') other = Dict.get (store w) other)
    /\ existing w' = existing w
    /\ trace w' = (trace w ++ [SaveJobs (store w')])%list.
Proof.
  intros Hget Hlt w'.
  destruct (nth_error_step job Hlt) as [step_name Hnth].
  exists step_name, (waiting_job job now step_name).
  assert (Hw' : w' = snd (save_jobs (Dict.set (store w) job_id
                                       (waiting_job job now step_name)) w)).
  { subst w'. now rewrite (generate_step job_id now w job step_name Hget Hnth). }
  assert (Hstore : store w' = Dict.set (store w) job_id (waiting_job job now step_name)).
  { rewrite Hw', store_save, (get_store_visible w job_id job Hget). reflexivity. }
  split; [exact Hnth|].
  split; [rewrite Hstore; apply DictFacts.get_set_eq|].
  repeat (split; [reflexivity|]).
  split; [exact Hstore|].
  split; [intros other Hne; rewrite Hstore; now apply DictFacts.get_set_ne|].
  split; [rewrite Hw'; reflexivity|].
  rewrite Hstore. rewrite Hw'. reflexivity.
Qed.

Lemma generate_colab_links_frame_witness :
  let w' := snd (generate_colab_links "a1b2c3d4" "12:00:30" created_world) in
  exists step_name job',
    nth_error (pipeline created_job) (current_step created_job) = Some step_name
    /\ Dict.get (store w') "a1b2c3d4" = Some job'
    /\ status job' = "waiting"
    /\ logs job' = (logs created_job
                    ++ [("12:00:30" ++ " - Colab link generated for " ++ step_name)%string])%list
    /\ id job' = id created_job /\ created job' = created created_job
    /\ current_step job' = current_step created_job /\ pipeline job' = pipeline created_job
    /\ files job' = files created_job /\ parameters job' = parameters created_job
    /\ step_outputs job' = step_outputs created_job
    /\ store w' = Dict.set (store created_world) "a1b2c3d4" job'
    /\ (forall other, other <> "a1b2c3d4" ->
          Dict.get (store w') other = Dict.get (store created_world) other)
    /\ existing w' = existing created_world
    /\ trace w' = (trace created_world ++ [SaveJobs (store w')])%list.
Proof.
  apply (generate_colab_links_frame "a1b2c3d4" "12:00:30" created_world created_job).
  - reflexivity.
  - simpl. lia.
Defined.

(** ** mark_step_complete and files.current *)

(** C10: for a job of the store with steps left, mark_step_complete with an
    empty output name records the placeholder name under the step in
    step_outputs and leaves files as they were; files.current is overwritten
    only when the output name is not empty, and then with that name. *)
Theorem mark_step_complete_current_file (job_id output_filename now1 now2 : string)
    (w : world) (job : Job) :
  Dict.get (store w) job_id = Some job ->
  current_step job < length (pipeline job) ->
  let w' := snd (mark_step_complete job_id output_filename now1 now2 w) in
  exists step_name job',
    nth_error (pipeline job) (current_step job) = Some step_name
    /\ Dict.get (store w') job_id = Some job'
    /\ (output_filename = EmptyString ->
        Dict.get (step_outputs job') step_name = Some (placeholder job_id (current_step job))
        /\ files job' = files job)
    /\ (output_filename <> EmptyString ->
        Dict.get (step_outputs job') step_name = Some output_filename
        /\ current (files job') = output_filename)
    /\ (current (files job') <> current (files job) -> output_filename <> EmptyString)
    /\ input (files job') = input (files job).
Proof.
  intros Hget Hlt w'.
  destruct (nth_error_step job Hlt) as [step_name Hnth].
  exists step_name, (advanced_job job_id output_filename now1 now2 step_name job).
  destruct (mark_step job_id output_filename now1 now2 w job step_name Hget Hnth)
    as [msg Hmark].
  assert (Hstore : store w' = Dict.set (store w) job_id
                     (advanced_job job_id output_filename now1 now2 step_name job)).
  { subst w'. rewrite Hmark. cbn [snd].
    rewrite store_save, (get_store_visible w job_id job Hget). reflexivity. }
  split; [exact Hnth|].
  split; [rewrite Hstore; apply DictFacts.get_set_eq|].
  unfold advanced_job; cbn [step_outputs files current input].
  repeat split.
  - subst output_filename. cbn [nonempty]. apply DictFacts.get_set_eq.
  - subst output_filename. cbn [nonempty]. now destruct (files job).
  - destruct output_filename; [contradiction|]. cbn [nonempty]. apply DictFacts.get_set_eq.
  - destruct output_filename; [contradiction|]. reflexivity.
  - intros Hchanged ->. apply Hchanged. reflexivity.
Qed.

Lemma mark_step_complete_current_file_witness :
  let w' := snd (mark_step_complete "a1b2c3d4" "" "12:01:00" "12:01:01" created_world) in
  exists step_name job',
    nth_error (pipeline created_job) (current_step created_job) = Some step_name
    /\ Dict.get (store w') "a1b2c3d4" = Some job'
    /\ (EmptyString = EmptyString ->
        Dict.get (step_outputs job') step_name
        = Some (placeholder "a1b2c3d4" (current_step created_job))
        /\ files job' = files created_job)
    /\ (EmptyString <> EmptyString ->
        Dict.get (step_outputs job') step_name = Some EmptyString
        /\ current (files job') = EmptyString)
    /\ (current (files job') <> current (files created_job) -> EmptyString <> EmptyString)
    /\ input (files job') = input (files created_job).
Proof.
  apply (mark_step_complete_current_file "a1b2c3d4" "" "12:01:00" "12:01:01"
           created_world created_job).
  - reflexivity.
  - simpl. lia.
Defined.

(** ** One request, seen from one job *)

Lemma snd_bind_ret {A B} (m : M A) (f : A -> B) (w : world) :
  snd ((a <- m ;; ret (f a)) w) = snd (m w).
Proof. unfold bind. now destruct (m w) as [[a|e] w']. Qed.

Lemma mark_step_store (job_id output_filename now1 now2 : string) (w : world) (job : Job)
    (step_name : string) :
  Dict.get (store w) job_id = Some job ->
  nth_error (pipeline job) (current_step job) = Some step_name ->
  store (snd (mark_step_complete job_id output_filename now1 now2 w))
  = Dict.set (store w) job_id (advanced_job job_id output_filename now1 now2 step_name job).
Proof.
  intros Hget Hnth.
  destruct (mark_step job_id output_filename now1 now2 w job step_name Hget Hnth)
    as [msg ->].
  cbn [snd]. now rewrite store_save, (get_store_visible w job_id job Hget).
Qed.

Lemma generate_step_store (job_id now : string) (w : world) (job : Job)
    (step_name : string) :
  Dict.get (store w) job_id = Some job ->
  nth_error (pipeline job) (current_step job) = Some step_name ->
  store (snd (generate_colab_links job_id now w))
  = Dict.set (store w) job_id (waiting_job job now step_name).
Proof.
  intros Hget Hnth. rewrite (generate_step job_id now w job step_name Hget Hnth).
  cbn [snd]. now rewrite store_save, (get_store_visible w job_id job Hget).
Qed.

Lemma exec_job (o : op) (w : world) (job_id : string) (job : Job) :
  Dict.get (store w) job_id = Some job ->
  draws o job_id = false ->
  exists job',
    Dict.get (store (snd (exec o w))) job_id = Some job'
    /\ job_step job_id o job (advances job_id o w) job'.
Proof.
  intros Hget Hdraw.
  pose proof (get_store_visible w job_id job Hget) as Hvis.
  destruct o as [uploaded_file pipeline_steps vt em en uuid4 timestamp now
                | | job_id' now | job_id' output_filename now1 now2 | job_id'];
    unfold exec; rewrite snd_bind_ret.
  - (* create_job *)
    exists job. split; [|apply job_untouched].
    destruct (truthy uploaded_file) eqn:Ht.
    + destruct uploaded_file as [u|]; [|discriminate].
      unfold draws in Hdraw. rewrite Ht in Hdraw. cbn [andb] in Hdraw.
      apply String.eqb_neq in Hdraw.
      destruct (path_exists w (path u)) eqn:Hsrc.
      * rewrite create_job_store by assumption. rewrite Hvis.
        rewrite DictFacts.get_set_ne by congruence. exact Hget.
      * rewrite create_job_no_source by assumption. exact Hget.
    + rewrite create_job_falsy by assumption. exact Hget.
  - (* get_job_status *)
    exists job. rewrite get_job_status_world. split; [exact Hget|apply job_untouched].
  - (* generate_colab_links *)
    cbn [advances].
    destruct (Dict.get (store w) job_id') as [job0|] eqn:Hget0.
    + destruct (Nat.le_gt_cases (length (pipeline job0)) (current_step job0)) as [Hle|Hlt].
      * rewrite (generate_all_done job_id' now w job0 Hget0 Hle).
        exists job. split; [exact Hget|apply job_untouched].
      * destruct (nth_error_step job0 Hlt) as [step_name Hnth].
        rewrite (generate_step_store job_id' now w job0 step_name Hget0 Hnth).
        destruct (String.eqb_spec job_id job_id') as [<-|Hne].
        -- assert (job0 = job) by congruence. subst job0.
           exists (waiting_job job now step_name).
           split; [apply DictFacts.get_set_eq|now apply job_waiting].
        -- exists job. rewrite DictFacts.get_set_ne by assumption.
           split; [exact Hget|apply job_untouched].
    + rewrite (generate_not_found job_id' now w Hget0).
      exists job. split; [exact Hget|apply job_untouched].
  - (* mark_step_complete *)
    cbn [advances]. rewrite Hget.
    destruct (Dict.get (store w) job_id') as [job0|] eqn:Hget0.
    + destruct (Nat.le_gt_cases (length (pipeline job0)) (current_step job0)) as [Hle|Hlt].
      * rewrite (mark_all_done job_id' output_filename now1 now2 w job0 Hget0 Hle).
        exists job. split; [exact Hget|].
        destruct (String.eqb_spec job_id' job_id) as [->|Hne]; cbn [andb].
        -- assert (job0 = job) by congruence. subst job0.
           apply Nat.ltb_ge in Hle. rewrite Hle. apply job_untouched.
        -- apply job_untouched.
      * destruct (nth_error_step job0 Hlt) as [step_name Hnth].
        rewrite (mark_step_store job_id' output_filename now1 now2 w job0 step_name
                   Hget0 Hnth).
        destruct (String.eqb_spec job_id' job_id) as [->|Hne]; cbn [andb].
        -- assert (job0 = job) by congruence. subst job0.
           apply Nat.ltb_lt in Hlt. rewrite Hlt.
           exists (advanced_job job_id output_filename now1 now2 step_name job).
           split; [apply DictFacts.get_set_eq|].
           now apply (job_advanced job_id
                        (MarkStepComplete job_id output_filename now1 now2) job
                        now1 now2 step_name).
        -- exists job. rewrite DictFacts.get_set_ne by congruence.
           split; [exact Hget|apply job_untouched].
    + rewrite (mark_not_found job_id' output_filename now1 now2 w Hget0).
      exists job. split; [exact Hget|].
      destruct (String.eqb_spec job_id' job_id) as [->|Hne]; cbn [andb];
        [congruence|apply job_untouched].
  - (* download_result *)
    exists job. rewrite download_result_world. split; [exact Hget|apply job_untouched].
Qed.

(** ** Invariants of a job *)

Lemma new_job_inv (u : upload) (pipeline_steps : option (list string))
    (voice_text emotion enhancement_type uuid4 timestamp now : string) :
  job_inv (new_job u pipeline_steps voice_text emotion enhancement_type uuid4 timestamp now).
Proof.
  unfold job_inv, new_job; cbn [current_step pipeline status].
  split; [lia|]. split; [discriminate|].
  intros Hlen Hne. destruct pipeline_steps as [[|s steps]|]; try discriminate;
    now contradiction Hne.
Qed.

Lemma job_step_fields (job_id : string) (o : op) (job job' : Job) (b : bool) :
  job_step job_id o job b job' ->
  id job' = id job /\ created job' = created job /\ pipeline job' = pipeline job
  /\ input (files job') = input (files job) /\ parameters job' = parameters job
  /\ current_step job' = current_step job + (if b then 1 else 0)
  /\ current (files job')
     = (if b then if nonempty (output_of o) then output_of o else current (files job)
        else current (files job))
  /\ (b = true -> current_step job < length (pipeline job)).
Proof.
  intros [now1 now2 step_name Hnth | | now step_name Hnth];
    unfold advanced_job, waiting_job;
    cbn [id created pipeline files input current parameters current_step];
    repeat split; try lia; try discriminate.
  intros _. apply nth_error_Some. congruence.
Qed.

Lemma job_step_inv (job_id : string) (o : op) (job job' : Job) (b : bool) :
  job_step job_id o job b job' -> job_inv job -> job_inv job'.
Proof.
  intros [now1 now2 step_name Hnth | | now step_name Hnth] (Hle & Hdone & Hall);
    [| now repeat split |];
    assert (Hlt : current_step job < length (pipeline job))
      by (apply nth_error_Some; congruence);
    unfold job_inv, advanced_job, waiting_job; cbn [current_step pipeline status].
  - destruct (Nat.leb_spec (length (pipeline job)) (current_step job + 1)).
    + split; [lia | split; [intros; lia | reflexivity]].
    + split; [lia | split; [discriminate | intros; lia]].
  - split; [lia | split; [discriminate | intros; lia]].
Qed.

(** What a request does to the store: nothing, or it sets one key, to a new
    job or to a step of the job that was there. *)
Lemma exec_store_shape (o : op) (w : world) :
  store (snd (exec o w)) = store w
  \/ exists job_id job',
       store (snd (exec o w)) = Dict.set (store w) job_id job'
       /\ ((exists u pipeline_steps vt em en uuid4 timestamp now,
              job' = new_job u pipeline_steps vt em en uuid4 timestamp now)
           \/ exists job b, Dict.get (store w) job_id = Some job
                            /\ job_step job_id o job b job').
Proof.
  destruct o as [uploaded_file pipeline_steps vt em en uuid4 timestamp now
                | | job_id now | job_id output_filename now1 now2 | job_id];
    unfold exec; rewrite snd_bind_ret.
  - destruct (truthy uploaded_file) eqn:Ht.
    + destruct uploaded_file as [u|]; [|discriminate].
      destruct (path_exists w (path u)) eqn:Hsrc.
      * rewrite create_job_store by assumption.
        destruct (visible w) eqn:Hvis.
        -- right. eexists _, _. split; [reflexivity|]. left.
           now exists u, pipeline_steps, vt, em, en, uuid4, timestamp, now.
        -- left. now rewrite store_invisible.
      * left. now rewrite create_job_no_source.
    + left. now rewrite create_job_falsy.
  - left. now rewrite get_job_status_world.
  - destruct (Dict.get (store w) job_id) as [job|] eqn:Hget.
    + destruct (Nat.le_gt_cases (length (pipeline job)) (current_step job)) as [Hle|Hlt].
      * left. now rewrite (generate_all_done job_id now w job Hget Hle).
      * destruct (nth_error_step job Hlt) as [step_name Hnth].
        right. exists job_id, (waiting_job job now step_name).
        split; [now apply generate_step_store|].
        right. exists job, false. split; [exact Hget|now apply job_waiting].
    + left. now rewrite (generate_not_found job_id now w Hget).
  - destruct (Dict.get (store w) job_id) as [job|] eqn:Hget.
    + destruct (Nat.le_gt_cases (length (pipeline job)) (current_step job)) as [Hle|Hlt].
      * left. now rewrite (mark_all_done job_id output_filename now1 now2 w job Hget Hle).
      * destruct (nth_error_step job Hlt) as [step_name Hnth].
        right. exists job_id, (advanced_job job_id output_filename now1 now2 step_name job).
        split; [now apply mark_step_store|].
        right. exists job, true. split; [exact Hget|].
        now apply (job_advanced job_id (MarkStepComplete job_id output_filename now1 now2)
                     job now1 now2 step_name).
    + left. now rewrite (mark_not_found job_id output_filename now1 now2 w Hget).
  - left. now rewrite download_result_world.
Qed.

Lemma exec_store_inv (o : op) (w : world) :
  store_inv (store w) -> store_inv (store (snd (exec o w))).
Proof.
  intros Hinv.
  destruct (exec_store_shape o w) as [-> | (job_id & job' & -> & Hjob')]; [exact Hinv|].
  intros job_id0 job0. rewrite DictFacts.get_set.
  destruct (String.eqb job_id0 job_id); [|apply Hinv].
  intros [= <-].
  destruct Hjob' as [(u & ps & vt & em & en & uuid4 & ts & now & ->)
                    | (job & b & Hget & Hstep)].
  - apply new_job_inv.
  - eapply job_step_inv; [exact Hstep|]. eapply Hinv; exact Hget.
Qed.

Lemma run_store_inv (ops : list op) (w : world) :
  store_inv (store w) -> store_inv (store (run ops w)).
Proof.
  revert w. induction ops as [|o ops IH]; intros w Hinv; [exact Hinv|].
  cbn [run]. apply IH. now apply exec_store_inv.
Qed.

(** Every job of a store that the requests built from an empty one satisfies
    the invariant. *)
Lemma reachable_store_inv (w0 : world) (ops : list op) :
  store w0 = Dict.empty -> store_inv (store (run ops w0)).
Proof.
  intros Hempty. apply run_store_inv. rewrite Hempty. intros job_id job. discriminate.
Qed.

(** A job followed through a sequence of requests, none of which creates it
    anew. *)
Lemma run_job (job_id : string) (ops : list op) (w : world) (job : Job) :
  Dict.get (store w) job_id = Some job ->
  (forall o, In o ops -> draws o job_id = false) ->
  exists job',
    Dict.get (store (run ops w)) job_id = Some job'
    /\ id job' = id job /\ created job' = created job /\ pipeline job' = pipeline job
    /\ input (files job') = input (files job) /\ parameters job' = parameters job
    /\ current_step job' = current_step job + length (advance_outputs job_id ops w)
    /\ current (files job')
       = last_nonempty (advance_outputs job_id ops w) (current (files job))
    /\ (job_inv job -> job_inv job').
Proof.
  revert w job. induction ops as [|o ops IH]; intros w job Hget Hfresh.
  - exists job. cbn [run advance_outputs last_nonempty length].
    rewrite Nat.add_0_r. repeat (split; [reflexivity || assumption|]). auto.
  - destruct (exec_job o w job_id job Hget (Hfresh o (or_introl eq_refl)))
      as (job1 & Hget1 & Hstep).
    destruct (IH (snd (exec o w)) job1 Hget1 (fun o' Hin => Hfresh o' (or_intror Hin)))
      as (job' & Hget' & Hid & Hcr & Hp & Hin & Hpar & Hcs & Hcur & Hinv).
    pose proof (job_step_fields _ _ _ _ _ Hstep)
      as (Hid1 & Hcr1 & Hp1 & Hin1 & Hpar1 & Hcs1 & Hcur1 & _).
    exists job'. cbn [run advance_outputs].
    split; [exact Hget'|].
    repeat (split; [congruence|]).
    destruct (advances job_id o w); cbn [length last_nonempty].
    + split; [lia|]. split; [now rewrite Hcur, Hcur1|].
      intros Hj. apply Hinv. eapply job_step_inv; eauto.
    + split; [lia|]. split; [now rewrite Hcur, Hcur1|].
      intros Hj. apply Hinv. eapply job_step_inv; eauto.
Qed.

Lemma visible_exec (o : op) (w : world) : visible (snd (exec o w)) = visible w.
Proof.
  destruct o as [uploaded_file pipeline_steps vt em en uuid4 timestamp now
                | | job_id now | job_id output_filename now1 now2 | job_id];
    unfold exec; rewrite snd_bind_ret.
  - destruct (truthy uploaded_file) eqn:Ht.
    + destruct uploaded_file as [u|]; [|discriminate].
      destruct (path_exists w (path u)) eqn:Hsrc.
      * rewrite create_job_world by assumption. cbv zeta.
        rewrite visible_save. unfold copy2. rewrite Hsrc. reflexivity.
      * now rewrite create_job_no_source.
    + now rewrite create_job_falsy.
  - now rewrite get_job_status_world.
  - destruct (Dict.get (store w) job_id) as [job|] eqn:Hget.
    + destruct (Nat.le_gt_cases (length (pipeline job)) (current_step job)) as [Hle|Hlt].
      * now rewrite (generate_all_done job_id now w job Hget Hle).
      * destruct (nth_error_step job Hlt) as [step_name Hnth].
        rewrite (generate_step job_id now w job step_name Hget Hnth).
        apply visible_save.
    + now rewrite (generate_not_found job_id now w Hget).
  - destruct (Dict.get (store w) job_id) as [job|] eqn:Hget.
    + destruct (Nat.le_gt_cases (length (pipeline job)) (current_step job)) as [Hle|Hlt].
      * now rewrite (mark_all_done job_id output_filename now1 now2 w job Hget Hle).
      * destruct (nth_error_step job Hlt) as [step_name Hnth].
        destruct (mark_step job_id output_filename now1 now2 w job step_name Hget Hnth)
          as [msg ->].
        apply visible_save.
    + now rewrite (mark_not_found job_id output_filename now1 now2 w Hget).
  - now rewrite download_result_world.
Qed.

Lemma advances_mark (job_id : string) (o : op) (w : world) :
  advances job_id o w = true ->
  exists output_filename now1 now2,
    o = MarkStepComplete job_id output_filename now1 now2.
Proof.
  destruct o as [| | |job_id' output_filename now1 now2|]; try discriminate.
  cbn [advances]. intros H. apply andb_prop in H as [Heq _].
  apply String.eqb_eq in Heq. subst job_id'. now exists output_filename, now1, now2.
Qed.

Lemma advances_visible (job_id : string) (o : op) (w : world) :
  advances job_id o w = true -> visible w = true.
Proof.
  destruct o as [| | |job_id' output_filename now1 now2|]; try discriminate.
  cbn [advances]. intros H. apply andb_prop in H as [_ H].
  destruct (Dict.get (store w) job_id) as [job|] eqn:Hget; [|discriminate].
  exact (get_store_visible w job_id job Hget).
Qed.

Lemma advance_outputs_invisible (job_id : string) (ops : list op) (w : world) :
  visible w = false -> advance_outputs job_id ops w = [].
Proof.
  revert w. induction ops as [|o ops IH]; intros w Hvis; [reflexivity|].
  cbn [advance_outputs]. rewrite IH by now rewrite visible_exec.
  destruct (advances job_id o w) eqn:Ha; [|reflexivity].
  apply advances_visible in Ha. congruence.
Qed.

(** A sequence of mark_step_complete calls draws no id. *)
Lemma marks_never_draw (job_id : string) (ops : list op) :
  (forall o, In o ops ->
     exists job_id' output_filename now1 now2,
       o = MarkStepComplete job_id' output_filename now1 now2) ->
  never_draws job_id ops = true.
Proof.
  intros Hmarks. unfold never_draws. apply forallb_forall. intros o Hin.
  destruct (Hmarks o Hin) as (job_id' & output_filename & now1 & now2 & ->). reflexivity.
Qed.

Lemma never_draws_In (job_id : string) (ops : list op) :
  never_draws job_id ops = true -> forall o, In o ops -> draws o job_id = false.
Proof.
  unfold never_draws. rewrite forallb_forall. intros H o Hin.
  apply negb_true_iff. now apply H.
Qed.

Lemma last_nonempty_last (names : list string) (default : string) :
  nonempty (last names EmptyString) = true ->
  last_nonempty names default = last names EmptyString.
Proof.
  revert default. induction names as [|n names IH]; intros default Hne.
  - discriminate.
  - cbn [last_nonempty]. destruct names as [|n' names'].
    + cbn [last] in Hne. cbn [last_nonempty last]. now rewrite Hne.
    + change (last (n :: n' :: names') EmptyString) with (last (n' :: names') EmptyString)
        in *.
      now apply IH.
Qed.

(** ** The terminal state *)

(** C3: in a store built by the requests, a job that is completed, or whose
    current_step has reached the length of its pipeline, is left alone by
    mark_step_complete: the call returns the already-completed text and the
    world is the one before the call, so no log line is appended and
    JOBS_FILE is not written; the same holds of every repetition of the
    call. *)
Theorem mark_step_complete_terminal (w0 : world) (ops : list op) (job_id : string)
    (job : Job) (output_filename now1 now2 : string) (n : nat) :
  store w0 = Dict.empty ->
  let w := run ops w0 in
  Dict.get (store w) job_id = Some job ->
  status job = "completed" \/ length (pipeline job) <= current_step job ->
  mark_step_complete job_id output_filename now1 now2 w = (Returned msg_already_completed, w)
  /\ run (repeat (MarkStepComplete job_id output_filename now1 now2) n) w = w.
Proof.
  intros Hempty w Hget Hdone.
  assert (Hle : length (pipeline job) <= current_step job).
  { destruct Hdone as [Hs|Hle]; [|exact Hle].
    destruct (reachable_store_inv w0 ops Hempty job_id job Hget) as (_ & Hc & _).
    rewrite (Hc Hs). apply Nat.le_refl. }
  pose proof (mark_all_done job_id output_filename now1 now2 w job Hget Hle) as Hmark.
  split; [exact Hmark|].
  induction n as [|n IH]; [reflexivity|].
  cbn [repeat run]. unfold exec at 1. rewrite snd_bind_ret, Hmark. exact IH.
Qed.

Lemma mark_step_complete_terminal_witness :
  let w := run scenario initial_world in
  mark_step_complete "a1b2c3d4" "late.mp4" "12:03:00" "12:03:01" w
  = (Returned msg_already_completed, w)
  /\ run (repeat (MarkStepComplete "a1b2c3d4" "late.mp4" "12:03:00" "12:03:01") 3) w = w.
Proof.
  apply (mark_step_complete_terminal initial_world scenario "a1b2c3d4" completed_job).
  - reflexivity.
  - reflexivity.
  - left. reflexivity.
Defined.

(** ** current_step *)

(** C4: take a job of a store built by the requests.  A request that does
    not draw the id of that job anew leaves the job in the store with the
    same pipeline; it leaves current_step as it was or adds exactly one to
    it, and it adds one only if it is a mark_step_complete call for that
    job; current_step stays at most the length of the pipeline.  Over a
    sequence of such requests, so over every sequence of mark_step_complete
    calls (see [marks_never_draw]), current_step never decreases and never
    exceeds the length of the pipeline. *)
Theorem current_step_monotone (w0 : world) (ops : list op) (job_id : string) (job : Job)
    (o : op) (ops' : list op) :
  store w0 = Dict.empty ->
  let w := run ops w0 in
  Dict.get (store w) job_id = Some job ->
  draws o job_id = false ->
  never_draws job_id ops' = true ->
  (exists job',
     Dict.get (store (snd (exec o w))) job_id = Some job'
     /\ pipeline job' = pipeline job
     /\ current_step job' <= length (pipeline job')
     /\ current_step job' = current_step job + (if advances job_id o w then 1 else 0)
     /\ (current_step job' <> current_step job ->
         exists output_filename now1 now2,
           o = MarkStepComplete job_id output_filename now1 now2))
  /\ (exists job',
        Dict.get (store (run ops' w)) job_id = Some job'
        /\ pipeline job' = pipeline job
        /\ current_step job <= current_step job'
        /\ current_step job' <= length (pipeline job')).
Proof.
  intros Hempty w Hget Hdraw Hfresh.
  pose proof (reachable_store_inv w0 ops Hempty job_id job Hget) as Hinv.
  split.
  - destruct (exec_job o w job_id job Hget Hdraw) as (job' & Hget' & Hstep).
    pose proof (job_step_fields _ _ _ _ _ Hstep) as (_ & _ & Hp & _ & _ & Hcs & _ & _).
    pose proof (job_step_inv _ _ _ _ _ Hstep Hinv) as (Hle & _).
    exists job'. repeat (split; [assumption|]).
    intros Hchanged. apply (advances_mark job_id o w).
    destruct (advances job_id o w); [reflexivity|]. lia.
  - destruct (run_job job_id ops' w job Hget (never_draws_In job_id ops' Hfresh))
      as (job' & Hget' & _ & _ & Hp & _ & _ & Hcs & _ & Hinv').
    destruct (Hinv' Hinv) as (Hle & _).
    exists job'. repeat (split; [assumption || lia|]). exact Hle.
Qed.

Lemma current_step_monotone_witness :
  let w := run (firstn 1 scenario) initial_world in
  (exists job',
     Dict.get (store (snd (exec (MarkStepComplete "a1b2c3d4" "" "12:01:00" "12:01:01") w)))
              "a1b2c3d4" = Some job'
     /\ pipeline job' = pipeline created_job
     /\ current_step job' <= length (pipeline job')
     /\ current_step job'
        = current_step created_job
          + (if advances "a1b2c3d4" (MarkStepComplete "a1b2c3d4" "" "12:01:00" "12:01:01") w
             then 1 else 0)
     /\ (current_step job' <> current_step created_job ->
         exists output_filename now1 now2,
           MarkStepComplete "a1b2c3d4" "" "12:01:00" "12:01:01"
           = MarkStepComplete "a1b2c3d4" output_filename now1 now2))
  /\ (exists job',
        Dict.get (store (run (skipn 1 scenario) w)) "a1b2c3d4" = Some job'
        /\ pipeline job' = pipeline created_job
        /\ current_step created_job <= current_step job'
        /\ current_step job' <= length (pipeline job')).
Proof.
  apply (current_step_monotone initial_world (firstn 1 scenario) "a1b2c3d4" created_job
           (MarkStepComplete "a1b2c3d4" "" "12:01:00" "12:01:01") (skipn 1 scenario));
    reflexivity.
Defined.

(** ** From creation to completion *)

(** C2, as stated, fails: a job with a pipeline of one step whose only step
    is reported with no output name has made its one successful
    mark_step_complete call and is completed, yet files.current is still the
    name of the uploaded file, not the placeholder a1b2c3d4_step_0_output. *)
Lemma completed_current_is_not_placeholder :
  advance_outputs "a1b2c3d4" (skipn 1 one_step_scenario)
                  (run (firstn 1 one_step_scenario) initial_world) = [EmptyString]
  /\ ~ (forall job,
          Dict.get (store (run one_step_scenario initial_world)) "a1b2c3d4" = Some job ->
          status job = "completed"
          /\ current (files job) = placeholder "a1b2c3d4" 0).
Proof.
  split; [reflexivity|].
  intros Hclaim.
  destruct (Hclaim _ eq_refl) as [_ Hcurrent].
  vm_compute in Hcurrent. discriminate.
Qed.

(** C2, amended: create_job stores a job with a non-empty pipeline of n
    steps; requests follow, none of which draws the id of the job anew, and
    exactly n of them are mark_step_complete calls that advance the job.
    Then the job is completed, current_step is n, and files.current is the
    last non-empty output name given to those calls, or the name of the
    uploaded file when every call came without one; in particular it is the
    name given to the last call when that name is not empty. *)
Theorem completed_after_all_steps (w : world) (u : upload) (steps : list string)
    (vt em en uuid4 timestamp now : string) (ops : list op) :
  truthy (Some u) = true ->
  path_exists w (path u) = true ->
  steps <> [] ->
  let job_id := String.substring 0 8 uuid4 in
  let w1 := snd (create_job (Some u) (Some steps) vt em en uuid4 timestamp now w) in
  let outputs := advance_outputs job_id ops w1 in
  never_draws job_id ops = true ->
  length outputs = length steps ->
  exists job,
    Dict.get (store (run ops w1)) job_id = Some job
    /\ pipeline job = steps
    /\ status job = "completed"
    /\ current_step job = length steps
    /\ current (files job) = last_nonempty outputs (input (files job))
    /\ (nonempty (last outputs EmptyString) = true ->
        current (files job) = last outputs EmptyString).
Proof.
  intros Ht Hsrc Hsteps job_id w1 outputs Hfresh Hlen.
  set (job0 := new_job u (Some steps) vt em en uuid4 timestamp now).
  assert (Hvis : visible w = true).
  { destruct (visible w) eqn:Hvis; [reflexivity|]. exfalso.
    assert (Hw1 : visible w1 = false).
    { subst w1. rewrite create_job_world by assumption. cbv zeta.
      rewrite visible_save. unfold copy2. rewrite Hsrc. exact Hvis. }
    subst outputs. rewrite (advance_outputs_invisible job_id ops w1 Hw1) in Hlen.
    destruct steps; [contradiction|discriminate]. }
  assert (Hget : Dict.get (store w1) job_id = Some job0).
  { subst w1. rewrite create_job_store by assumption. rewrite Hvis.
    apply DictFacts.get_set_eq. }
  destruct (run_job job_id ops w1 job0 Hget (never_draws_In job_id ops Hfresh))
    as (job & Hget' & _ & _ & Hp & Hin & _ & Hcs & Hcur & Hinv).
  destruct (Hinv (new_job_inv _ _ _ _ _ _ _ _)) as (_ & _ & Hall).
  fold outputs in Hcs, Hcur.
  change (pipeline job0) with steps in Hp.
  change (current_step job0) with 0 in Hcs.
  change (current (files job0)) with (input (files job0)) in Hcur.
  rewrite <- Hin in Hcur.
  exists job. split; [exact Hget'|]. split; [exact Hp|].
  split; [apply Hall; rewrite Hp; [lia|assumption]|].
  split; [lia|]. split; [exact Hcur|].
  intros Hlast. rewrite Hcur. now apply last_nonempty_last.
Qed.

Lemma completed_after_all_steps_witness :
  let job_id := String.substring 0 8 "a1b2c3d4-0000-4000-8000-000000000000" in
  let w1 := snd (create_job (Some clip) (Some ["Audio Enhancement"; "Video Enhancement"])
                   "hello" "neutral" "basic" "a1b2c3d4-0000-4000-8000-000000000000"
                   "20240101_120000" "12:00:00" initial_world) in
  let outputs := advance_outputs job_id (skipn 1 scenario) w1 in
  exists job,
    Dict.get (store (run (skipn 1 scenario) w1)) job_id = Some job
    /\ pipeline job = ["Audio Enhancement"; "Video Enhancement"]
    /\ status job = "completed"
    /\ current_step job = length ["Audio Enhancement"; "Video Enhancement"]
    /\ current (files job) = last_nonempty outputs (input (files job))
    /\ (nonempty (last outputs EmptyString) = true ->
        current (files job) = last outputs EmptyString).
Proof.
  apply (completed_after_all_steps initial_world clip
           ["Audio Enhancement"; "Video Enhancement"] "hello" "neutral" "basic"
           "a1b2c3d4-0000-4000-8000-000000000000" "20240101_120000" "12:00:00"
           (skipn 1 scenario)).
  - reflexivity.
  - reflexivity.
  - discriminate.
  - reflexivity.
  - reflexivity.
Defined.

(** ** Completed jobs and the end of the pipeline *)

(** In a store built by the requests, a completed job has run all its steps,
    and for a job with a non-empty pipeline the two are equivalent. *)
Theorem completed_iff_all_steps (w0 : world) (ops : list op) (job_id : string) (job : Job) :
  store w0 = Dict.empty ->
  Dict.get (store (run ops w0)) job_id = Some job ->
  (status job = "completed" -> current_step job = length (pipeline job))
  /\ (pipeline job <> [] ->
      (status job = "completed" <-> current_step job = length (pipeline job))).
Proof.
  intros Hempty Hget.
  destruct (reachable_store_inv w0 ops Hempty job_id job Hget) as (_ & Hc & Hall).
  split; [exact Hc|]. intros Hne. split; [exact Hc|]. intros Hcs. now apply Hall.
Qed.

(** The equivalence between being completed and having run all the steps is
    kept by mark_step_complete and by generate_colab_links, for the job they
    are called on, whatever the job was before. *)
Theorem completed_iff_preserved (o : op) (w : world) (job_id : string) (job : Job) :
  Dict.get (store w) job_id = Some job ->
  (exists output_filename now1 now2, o = MarkStepComplete job_id output_filename now1 now2)
  \/ (exists now, o = GenerateColabLinks job_id now) ->
  (status job = "completed" <-> current_step job = length (pipeline job)) ->
  exists job',
    Dict.get (store (snd (exec o w))) job_id = Some job'
    /\ (status job' = "completed" <-> current_step job' = length (pipeline job')).
Proof.
  intros Hget Hop Hiff.
  assert (Hdraw : draws o job_id = false)
    by (destruct Hop as [(? & ? & ? & ->) | (? & ->)]; reflexivity).
  destruct (exec_job o w job_id job Hget Hdraw) as (job' & Hget' & Hstep).
  exists job'. split; [exact Hget'|].
  destruct Hstep as [now1 now2 step_name Hnth | | now step_name Hnth];
    [| exact Hiff |];
    assert (Hlt : current_step job < length (pipeline job))
      by (apply nth_error_Some; congruence);
    unfold advanced_job, waiting_job; cbn [status current_step pipeline].
  - destruct (Nat.leb_spec (length (pipeline job)) (current_step job + 1)).
    + split; [intros; lia | reflexivity].
    + split; [discriminate | intros; lia].
  - split; [discriminate | intros; lia].
Qed.

(** C1 fails on create_job with an empty list of steps: the call returns its
    success text and stores a job whose current_step, 0, is the length of its
    pipeline while its status is ready, not completed.  The job stays so:
    mark_step_complete and generate_colab_links answer that it is completed
    and write nothing, and download_result returns None. *)
Theorem empty_pipeline_job_is_not_completed :
  fst (create_job (Some clip) (Some []) "hello" "neutral" "basic"
                  "a1b2c3d4-0000-4000-8000-000000000000" "20240101_120000" "12:00:00"
                  initial_world)
  = Returned ("✅ Job a1b2c3d4 created successfully!" ++ nl
              ++ "File: /tmp/gradio/clip.mp4" ++ nl ++ "Pipeline: ")
  /\ (exists job,
        Dict.get (store empty_pipeline_world) "a1b2c3d4" = Some job
        /\ pipeline job = []
        /\ current_step job = length (pipeline job)
        /\ status job = "ready"
        /\ ~ (status job = "completed" <-> current_step job = length (pipeline job)))
  /\ mark_step_complete "a1b2c3d4" "" "12:01:00" "12:01:01" empty_pipeline_world
     = (Returned msg_already_completed, empty_pipeline_world)
  /\ generate_colab_links "a1b2c3d4" "12:00:30" empty_pipeline_world
     = (Returned msg_all_steps_completed, empty_pipeline_world)
  /\ fst (download_result "a1b2c3d4" empty_pipeline_world) = Returned None.
Proof.
  split; [reflexivity|]. split; [|repeat split; reflexivity].
  eexists. split; [reflexivity|]. cbn [pipeline current_step status length].
  repeat split. intros [_ Hall]. specialize (Hall eq_refl). discriminate.
Qed.

(** * Further properties of the operations *)

(** ** Every request, by cases *)

Lemma exec_kind_of (o : op) (w : world) : exec_kind o w (snd (exec o w)).
Proof.
  destruct o as [uploaded_file pipeline_steps vt em en uuid4 timestamp now
                | | job_id now | job_id output_filename now1 now2 | job_id];
    unfold exec; rewrite snd_bind_ret.
  - destruct (truthy uploaded_file) eqn:Ht.
    + destruct uploaded_file as [u|]; [|discriminate].
      destruct (path_exists w (path u)) eqn:Hsrc.
      * eapply kind_create; [reflexivity|exact Ht|exact Hsrc|].
        now apply create_job_world.
      * apply kind_same. now rewrite create_job_no_source.
    + apply kind_same. now rewrite create_job_falsy.
  - apply kind_same. apply get_job_status_world.
  - destruct (Dict.get (store w) job_id) as [job|] eqn:Hget.
    + destruct (Nat.le_gt_cases (length (pipeline job)) (current_step job)) as [Hle|Hlt].
      * apply kind_same. now rewrite (generate_all_done job_id now w job Hget Hle).
      * destruct (nth_error_step job Hlt) as [step_name Hnth].
        eapply kind_generate; [reflexivity|exact Hget|exact Hnth|].
        now rewrite (generate_step job_id now w job step_name Hget Hnth).
    + apply kind_same. now rewrite (generate_not_found job_id now w Hget).
  - destruct (Dict.get (store w) job_id) as [job|] eqn:Hget.
    + destruct (Nat.le_gt_cases (length (pipeline job)) (current_step job)) as [Hle|Hlt].
      * apply kind_same.
        now rewrite (mark_all_done job_id output_filename now1 now2 w job Hget Hle).
      * destruct (nth_error_step job Hlt) as [step_name Hnth].
        eapply kind_mark; [reflexivity|exact Hget|exact Hnth|].
        destruct (mark_step job_id output_filename now1 now2 w job step_name Hget Hnth)
          as [msg ->].
        reflexivity.
    + apply kind_same. now rewrite (mark_not_found job_id output_filename now1 now2 w Hget).
  - apply kind_same. apply download_result_world.
Qed.

Lemma create_job_fst (u : upload) (pipeline_steps : option (list string))
    (voice_text emotion enhancement_type uuid4 timestamp now : string) (w : world) :
  truthy (Some u) = true ->
  path_exists w (path u) = true ->
  fst (create_job (Some u) pipeline_steps voice_text emotion enhancement_type
                  uuid4 timestamp now w)
  = match pipeline_steps with
    | None => Raised TypeError
    | Some steps =>
        Returned ("✅ Job " ++ String.substring 0 8 uuid4 ++ " created successfully!" ++ nl
                  ++ "File: " ++ match name u with Some n => n | None => "Uploaded File" end
                  ++ nl ++ "Pipeline: " ++ join " → " steps)
    end.
Proof.
  intros Ht Hsrc. unfold truthy in Ht.
  unfold create_job. rewrite Ht. cbv beta iota zeta delta [negb].
  unfold bind at 1. unfold copy2. rewrite Hsrc.
  cbv beta iota. rewrite bind_load, bind_save.
  destruct pipeline_steps as [steps|]; reflexivity.
Qed.

Lemma path_exists_cons (w : world) (p q : string) (f : option disk_file) (t : list event) :
  path_exists (mkWorld f (q :: existing w) t) p = String.eqb p q || path_exists w p.
Proof. reflexivity. Qed.

Lemma existing_save (jobs : Jobs) (w : world) :
  existing (snd (save_jobs jobs w)) = existing w.
Proof. reflexivity. Qed.

Lemma path_exists_save (jobs : Jobs) (w : world) (p : string) :
  path_exists (snd (save_jobs jobs w)) p = path_exists w p.
Proof. reflexivity. Qed.

Lemma trace_save (jobs : Jobs) (w : world) :
  trace (snd (save_jobs jobs w)) = (trace w ++ [SaveJobs jobs])%list.
Proof. reflexivity. Qed.

(** ** save_jobs and load_jobs *)

(** X1: what save_jobs writes, load_jobs reads back, provided JOBS_FILE was
    missing or readable; behind an unreadable file the written jobs stay out
    of sight and load_jobs keeps answering the empty mapping.  Reading never
    changes the world. *)
Theorem save_then_load (jobs : Jobs) (w : world) :
  load_jobs (snd (save_jobs jobs w))
  = (Returned (if visible w then jobs else Dict.empty), snd (save_jobs jobs w)).
Proof.
  rewrite load_jobs_eq, store_save. reflexivity.
Qed.

(** ** The initialisation of the module *)

(** X2: loading the module never raises; afterwards JOBS_FILE and OUTPUTS_DIR
    exist; a JOBS_FILE that was there is left untouched, so the jobs that
    load_jobs sees are the same as before; and running the initialisation a
    second time changes nothing. *)
Theorem initialize_keeps_jobs (w : world) :
  let w' := snd (initialize w) in
  fst (initialize w) = Returned tt
  /\ jobs_file w' <> None
  /\ path_exists w' OUTPUTS_DIR = true
  /\ (jobs_file w <> None -> jobs_file w' = jobs_file w)
  /\ store w' = store w
  /\ initialize w' = (Returned tt, w').
Proof.
  unfold initialize, bind, save_jobs, makedirs, store, load_jobs, try_except, bind,
    open_read, json_load, ret, raise, path_exists.
  destruct w as [[[[] []]|] e tr]; cbn [jobs_file existing trace fst snd];
    destruct (existsb (String.eqb OUTPUTS_DIR) e) eqn:He;
    cbn [jobs_file existing trace fst snd existsb orb readable text];
    rewrite ?He, ?String.eqb_refl; cbn [orb];
    repeat split; try discriminate; try reflexivity; try congruence.
Qed.

(** ** create_job with an upload *)

(** X3: create_job with an upload whose file exists and a list of steps
    returns its success text, copies the upload into OUTPUTS_DIR under a name
    made of the job id, the timestamp and the extension of the upload, and
    stores under the job id a job that is ready at step 0 of the given
    pipeline, with that file as input and as current file, no step output
    and one log line, whatever was stored under that id before.  The other
    jobs are left as they were; one file is copied and JOBS_FILE is written
    once. *)
Theorem create_job_stores_ready_job (u : upload) (steps : list string)
    (vt em en uuid4 timestamp now : string) (w : world) :
  truthy (Some u) = true ->
  path_exists w (path u) = true ->
  visible w = true ->
  let job_id := String.substring 0 8 uuid4 in
  let saved_filename :=
    job_id ++ "_" ++ timestamp ++ "_input"
    ++ match name u with Some n => splitext_ext n | None => EmptyString end in
  let result := create_job (Some u) (Some steps) vt em en uuid4 timestamp now w in
  fst result
  = Returned ("✅ Job " ++ job_id ++ " created successfully!" ++ nl
              ++ "File: " ++ match name u with Some n => n | None => "Uploaded File" end
              ++ nl ++ "Pipeline: " ++ join " → " steps)
  /\ Dict.get (store (snd result)) job_id
     = Some (mkJob job_id timestamp "ready" 0 steps
                   (mkFiles saved_filename saved_filename) (mkParameters vt em en)
                   Dict.empty [now ++ " - Job created"])
  /\ (forall other, other <> job_id ->
        Dict.get (store (snd result)) other = Dict.get (store w) other)
  /\ path_exists (snd result) (path_join OUTPUTS_DIR saved_filename) = true
  /\ trace (snd result)
     = (trace w ++ [Copy2 (path u) (path_join OUTPUTS_DIR saved_filename);
                    SaveJobs (store (snd result))])%list.
Proof.
  intros Ht Hsrc Hvis job_id saved_filename result. subst result.
  split; [now rewrite create_job_fst|].
  assert (Hstore : store (snd (create_job (Some u) (Some steps) vt em en uuid4 timestamp now w))
                   = Dict.set (store w) job_id
                       (new_job u (Some steps) vt em en uuid4 timestamp now))
    by (rewrite create_job_store by assumption; now rewrite Hvis).
  rewrite Hstore.
  split; [apply DictFacts.get_set_eq|].
  split; [intros other Hne; now apply DictFacts.get_set_ne|].
  rewrite create_job_world by assumption. cbv zeta.
  rewrite path_exists_save, trace_save. unfold copy2. rewrite Hsrc. cbn [snd].
  split.
  - rewrite path_exists_cons. unfold new_job. cbn [files input].
    fold job_id. fold saved_filename. now rewrite String.eqb_refl.
  - cbn [trace]. rewrite <- app_assoc. reflexivity.
Qed.

Lemma create_job_stores_ready_job_witness :
  let job_id := String.substring 0 8 "a1b2c3d4-0000-4000-8000-000000000000" in
  let saved_filename :=
    job_id ++ "_" ++ "20240101_120000" ++ "_input"
    ++ match name clip with Some n => splitext_ext n | None => EmptyString end in
  let result := create_job (Some clip) (Some ["Audio Enhancement"; "Video Enhancement"])
                  "hello" "neutral" "basic" "a1b2c3d4-0000-4000-8000-000000000000"
                  "20240101_120000" "12:00:00" initial_world in
  fst result
  = Returned ("✅ Job " ++ job_id ++ " created successfully!" ++ nl
              ++ "File: " ++ match name clip with Some n => n | None => "Uploaded File" end
              ++ nl ++ "Pipeline: " ++ join " → " ["Audio Enhancement"; "Video Enhancement"])
  /\ Dict.get (store (snd result)) job_id
     = Some (mkJob job_id "20240101_120000" "ready" 0
                   ["Audio Enhancement"; "Video Enhancement"]
                   (mkFiles saved_filename saved_filename)
                   (mkParameters "hello" "neutral" "basic")
                   Dict.empty ["12:00:00" ++ " - Job created"])
  /\ (forall other, other <> job_id ->
        Dict.get (store (snd result)) other = Dict.get (store initial_world) other)
  /\ path_exists (snd result) (path_join OUTPUTS_DIR saved_filename) = true
  /\ trace (snd result)
     = (trace initial_world
        ++ [Copy2 (path clip) (path_join OUTPUTS_DIR saved_filename);
            SaveJobs (store (snd result))])%list.
Proof.
  apply (create_job_stores_ready_job clip ["Audio Enhancement"; "Video Enhancement"]
           "hello" "neutral" "basic" "a1b2c3d4-0000-4000-8000-000000000000"
           "20240101_120000" "12:00:00" initial_world); reflexivity.
Defined.

(** X4: create_job called with None for the steps raises TypeError when it
    formats its answer, after the upload has been copied and the job has been
    stored, with an empty pipeline: the caller sees an error, the job
    exists. *)
Theorem create_job_without_steps_raises_after_saving (u : upload)
    (vt em en uuid4 timestamp now : string) (w : world) :
  truthy (Some u) = true ->
  path_exists w (path u) = true ->
  visible w = true ->
  let job_id := String.substring 0 8 uuid4 in
  let result := create_job (Some u) None vt em en uuid4 timestamp now w in
  fst result = Raised TypeError
  /\ exists job,
       Dict.get (store (snd result)) job_id = Some job
       /\ pipeline job = [] /\ status job = "ready" /\ current_step job = 0
       /\ path_exists (snd result) (path_join OUTPUTS_DIR (input (files job))) = true.
Proof.
  intros Ht Hsrc Hvis job_id result. subst result.
  split; [now rewrite create_job_fst|].
  exists (new_job u None vt em en uuid4 timestamp now).
  split; [rewrite create_job_store by assumption; rewrite Hvis; apply DictFacts.get_set_eq|].
  repeat (split; [reflexivity|]).
  rewrite create_job_world by assumption. cbv zeta.
  rewrite path_exists_save. unfold copy2. rewrite Hsrc. cbn [snd].
  rewrite path_exists_cons. now rewrite String.eqb_refl.
Qed.

Lemma create_job_without_steps_raises_after_saving_witness :
  let job_id := String.substring 0 8 "a1b2c3d4-0000-4000-8000-000000000000" in
  let result := create_job (Some clip) None "hello" "neutral" "basic"
                  "a1b2c3d4-0000-4000-8000-000000000000" "20240101_120000" "12:00:00"
                  initial_world in
  fst result = Raised TypeError
  /\ exists job,
       Dict.get (store (snd result)) job_id = Some job
       /\ pipeline job = [] /\ status job = "ready" /\ current_step job = 0
       /\ path_exists (snd result) (path_join OUTPUTS_DIR (input (files job))) = true.
Proof.
  apply (create_job_without_steps_raises_after_saving clip "hello" "neutral" "basic"
           "a1b2c3d4-0000-4000-8000-000000000000" "20240101_120000" "12:00:00"
           initial_world); reflexivity.
Defined.

(** X5: when the file of the upload does not exist, create_job raises
    FileNotFoundError from the copy, before it reads or writes JOBS_FILE: the
    world is unchanged. *)
Theorem create_job_missing_upload_file (u : upload) (pipeline_steps : option (list string))
    (vt em en uuid4 timestamp now : string) (w : world) :
  truthy (Some u) = true ->
  path_exists w (path u) = false ->
  let result := create_job (Some u) pipeline_steps vt em en uuid4 timestamp now w in
  fst result = Raised FileNotFoundError
  /\ snd result = w
  /\ store (snd result) = store w
  /\ trace (snd result) = trace w.
Proof.
  intros Ht Hsrc result. subst result.
  rewrite create_job_no_source by assumption. cbn [fst snd]. auto.
Qed.

Lemma create_job_missing_upload_file_witness :
  let result := create_job (Some (mkUpload "/tmp/gradio/gone.wav" None))
                  (Some ["Audio Enhancement"]) "hello" "neutral" "basic"
                  "a1b2c3d4-0000-4000-8000-000000000000" "20240101_120000" "12:00:00"
                  created_world in
  fst result = Raised FileNotFoundError
  /\ snd result = created_world
  /\ store (snd result) = store created_world
  /\ trace (snd result) = trace created_world.
Proof.
  apply (create_job_missing_upload_file (mkUpload "/tmp/gradio/gone.wav" None));
    reflexivity.
Defined.

(** X6: when JOBS_FILE holds text that is not JSON, create_job takes the
    store for empty and overwrites the file: afterwards JOBS_FILE holds the
    new job and nothing else. *)
Theorem create_job_overwrites_corrupt_index (u : upload)
    (pipeline_steps : option (list string))
    (vt em en uuid4 timestamp now : string) (w : world) :
  truthy (Some u) = true ->
  path_exists w (path u) = true ->
  jobs_file w = Some (mkDiskFile true NotJson) ->
  jobs_file (snd (create_job (Some u) pipeline_steps vt em en uuid4 timestamp now w))
  = Some (mkDiskFile true
            (Json [(String.substring 0 8 uuid4,
                    new_job u pipeline_steps vt em en uuid4 timestamp now)])).
Proof.
  intros Ht Hsrc Hfile.
  rewrite create_job_world by assumption. cbv zeta.
  unfold copy2. rewrite Hsrc. cbn [snd].
  unfold save_jobs. cbn [snd jobs_file]. rewrite Hfile. cbn [readable].
  assert (Hempty : store w = Dict.empty).
  { unfold store, load_jobs, try_except, bind, open_read. now rewrite Hfile. }
  rewrite Hempty. reflexivity.
Qed.

Lemma create_job_overwrites_corrupt_index_witness :
  jobs_file (snd (create_job (Some clip) (Some ["Split & Merge"])
                    "hello" "neutral" "basic" "a1b2c3d4-0000-4000-8000-000000000000"
                    "20240101_120000" "12:00:00" corrupt_world_with_upload))
  = Some (mkDiskFile true
            (Json [(String.substring 0 8 "a1b2c3d4-0000-4000-8000-000000000000",
                    new_job clip (Some ["Split & Merge"])
                            "hello" "neutral" "basic" "a1b2c3d4-0000-4000-8000-000000000000"
                            "20240101_120000" "12:00:00")])).
Proof.
  apply (create_job_overwrites_corrupt_index clip); reflexivity.
Defined.

(** ** Unknown job ids *)

(** X7: for a job id that is not in the store, generate_colab_links and
    mark_step_complete return the not-found text and download_result returns
    None; none of them changes the world. *)
Theorem unknown_job_id (job_id now output_filename now1 now2 : string) (w : world) :
  Dict.get (store w) job_id = None ->
  generate_colab_links job_id now w = (Returned msg_not_found, w)
  /\ mark_step_complete job_id output_filename now1 now2 w = (Returned msg_not_found, w)
  /\ download_result job_id w = (Returned None, w).
Proof.
  intros Hget.
  split; [now apply generate_not_found|].
  split; [now apply mark_not_found|].
  unfold download_result. rewrite bind_load, Hget. reflexivity.
Qed.

Lemma unknown_job_id_witness :
  generate_colab_links "ffffffff" "12:00:30" created_world
  = (Returned msg_not_found, created_world)
  /\ mark_step_complete "ffffffff" "out.wav" "12:01:00" "12:01:01" created_world
     = (Returned msg_not_found, created_world)
  /\ download_result "ffffffff" created_world = (Returned None, created_world).
Proof.
  apply (unknown_job_id "ffffffff" "12:00:30" "out.wav" "12:01:00" "12:01:01" created_world).
  reflexivity.
Defined.

(** ** What mark_step_complete answers *)

Lemma mark_step_fst (job_id output_filename now1 now2 : string) (w : world) (job : Job)
    (step_name : string) :
  Dict.get (store w) job_id = Some job ->
  nth_error (pipeline job) (current_step job) = Some step_name ->
  fst (mark_step_complete job_id output_filename now1 now2 w)
  = if (length (pipeline job) <=? current_step job + 1)%nat
    then Returned ("🎉 Job " ++ job_id ++ " completed successfully!" ++ nl
                   ++ "Final output: "
                   ++ if nonempty output_filename then output_filename
                      else current (files job))
    else match nth_error (pipeline job) (current_step job + 1) with
         | Some next_step =>
             Returned ("✅ Step completed! Next: " ++ next_step ++ nl
                       ++ "Click 'Generate Colab Link' to continue.")
         | None => Raised IndexError
         end.
Proof.
  intros H Hnth. unfold mark_step_complete. rewrite bind_load, H.
  assert (Hlt : current_step job < length (pipeline job))
    by (apply nth_error_Some; congruence).
  apply Nat.leb_gt in Hlt. cbv zeta. rewrite Hlt.
  unfold index at 1. rewrite Hnth. unfold bind at 1, ret at 1.
  rewrite bind_save. clear H.
  destruct job as [jid jcreated jstatus jstep jpipeline [jinput jcurrent] jparams jouts jlogs].
  cbn [current_step pipeline files current] in *.
  destruct (nonempty output_filename) eqn:Eo;
    cbn [set_current append_log set_current_step set_step_output set_status
         current_step pipeline status files current input id created parameters
         step_outputs logs];
    destruct (length jpipeline <=? jstep + 1)%nat eqn:El;
    cbn [set_current append_log set_current_step set_step_output set_status
         current_step pipeline status files current input id created parameters
         step_outputs logs].
  all: try (rewrite String.eqb_refl; reflexivity).
  all: change ("ready" =? "completed") with false; cbv iota.
  all: unfold bind, index;
    destruct (nth_error jpipeline (jstep + 1)) as [next_step|]; reflexivity.
Qed.

(** X8: a mark_step_complete call that advances a job never raises.  When the
    step was the last one it answers that the job is completed and names
    files.current as it is after the call; otherwise it names the step that
    comes next in the pipeline. *)
Theorem mark_step_complete_answer (job_id output_filename now1 now2 : string)
    (w : world) (job : Job) :
  Dict.get (store w) job_id = Some job ->
  current_step job < length (pipeline job) ->
  let answer := fst (mark_step_complete job_id output_filename now1 now2 w) in
  (current_step job + 1 = length (pipeline job) ->
   answer = Returned ("🎉 Job " ++ job_id ++ " completed successfully!" ++ nl
                      ++ "Final output: "
                      ++ if nonempty output_filename then output_filename
                         else current (files job)))
  /\ (current_step job + 1 < length (pipeline job) ->
      exists next_step,
        nth_error (pipeline job) (current_step job + 1) = Some next_step
        /\ answer = Returned ("✅ Step completed! Next: " ++ next_step ++ nl
                              ++ "Click 'Generate Colab Link' to continue.")).
Proof.
  intros Hget Hlt answer. subst answer.
  destruct (nth_error_step job Hlt) as [step_name Hnth].
  rewrite (mark_step_fst job_id output_filename now1 now2 w job step_name Hget Hnth).
  split.
  - intros Hlast.
    assert (Hle : (length (pipeline job) <=? current_step job + 1)%nat = true)
      by (apply Nat.leb_le; lia).
    now rewrite Hle.
  - intros Hmore.
    assert (Hgt : (length (pipeline job) <=? current_step job + 1)%nat = false)
      by (apply Nat.leb_gt; lia).
    rewrite Hgt.
    destruct (nth_error (pipeline job) (current_step job + 1)) as [next_step|] eqn:En.
    + now exists next_step.
    + apply nth_error_None in En. lia.
Qed.

Lemma mark_step_complete_answer_witness :
  let answer := fst (mark_step_complete "a1b2c3d4" "" "12:01:00" "12:01:01" created_world) in
  (current_step created_job + 1 = length (pipeline created_job) ->
   answer = Returned ("🎉 Job " ++ "a1b2c3d4" ++ " completed successfully!" ++ nl
                      ++ "Final output: "
                      ++ if nonempty "" then "" else current (files created_job)))
  /\ (current_step created_job + 1 < length (pipeline created_job) ->
      exists next_step,
        nth_error (pipeline created_job) (current_step created_job + 1) = Some next_step
        /\ answer = Returned ("✅ Step completed! Next: " ++ next_step ++ nl
                              ++ "Click 'Generate Colab Link' to continue.")).
Proof.
  apply (mark_step_complete_answer "a1b2c3d4" "" "12:01:00" "12:01:01"
           created_world created_job).
  - reflexivity.
  - simpl. lia.
Defined.

(** ** generate_colab_links, repeated and followed by mark_step_complete *)

(** X9: asking for the link of the same step a second time gives the same
    instructions and the same link as the first time; the second call only
    appends one more log line. *)
Theorem generate_colab_links_twice (job_id now now' : string) (w : world) (job : Job) :
  Dict.get (store w) job_id = Some job ->
  current_step job < length (pipeline job) ->
  let w1 := snd (generate_colab_links job_id now w) in
  let w2 := snd (generate_colab_links job_id now' w1) in
  fst (generate_colab_links job_id now' w1) = fst (generate_colab_links job_id now w)
  /\ exists step_name job1 job2,
       Dict.get (store w1) job_id = Some job1
       /\ Dict.get (store w2) job_id = Some job2
       /\ status job2 = "waiting"
       /\ current_step job2 = current_step job
       /\ files job2 = files job
       /\ logs job2
          = (logs job1 ++ [(now' ++ " - Colab link generated for " ++ step_name)%string])%list.
Proof.
  intros Hget Hlt w1 w2.
  destruct (nth_error_step job Hlt) as [step_name Hnth].
  assert (Hget1 : Dict.get (store w1) job_id = Some (waiting_job job now step_name)).
  { subst w1. rewrite (generate_step_store job_id now w job step_name Hget Hnth).
    apply DictFacts.get_set_eq. }
  assert (Hnth1 : nth_error (pipeline (waiting_job job now step_name))
                            (current_step (waiting_job job now step_name)) = Some step_name)
    by exact Hnth.
  split.
  - rewrite (generate_step job_id now' w1 _ step_name Hget1 Hnth1).
    subst w1. rewrite (generate_step job_id now w job step_name Hget Hnth). reflexivity.
  - exists step_name, (waiting_job job now step_name),
      (waiting_job (waiting_job job now step_name) now' step_name).
    split; [exact Hget1|].
    split; [subst w2; rewrite (generate_step_store job_id now' w1 _ step_name Hget1 Hnth1);
            apply DictFacts.get_set_eq|].
    repeat split; reflexivity.
Qed.

Lemma generate_colab_links_twice_witness :
  let w1 := snd (generate_colab_links "a1b2c3d4" "12:00:30" created_world) in
  let w2 := snd (generate_colab_links "a1b2c3d4" "12:00:45" w1) in
  fst (generate_colab_links "a1b2c3d4" "12:00:45" w1)
  = fst (generate_colab_links "a1b2c3d4" "12:00:30" created_world)
  /\ exists step_name job1 job2,
       Dict.get (store w1) "a1b2c3d4" = Some job1
       /\ Dict.get (store w2) "a1b2c3d4" = Some job2
       /\ status job2 = "waiting"
       /\ current_step job2 = current_step created_job
       /\ files job2 = files created_job
       /\ logs job2
          = (logs job1
             ++ [("12:00:45" ++ " - Colab link generated for " ++ step_name)%string])%list.
Proof.
  apply (generate_colab_links_twice "a1b2c3d4" "12:00:30" "12:00:45" created_world
           created_job).
  - reflexivity.
  - simpl. lia.
Defined.



(** ** Invariants of the jobs of a store built by the requests *)

(** A property of the jobs that create_job writes, kept by every step of a
    job, holds of every job of a store built from an empty one. *)
Lemma reachable_jobs_ind (P : Job -> Prop) :
  (forall u pipeline_steps vt em en uuid4 timestamp now,
     P (new_job u pipeline_steps vt em en uuid4 timestamp now)) ->
  (forall job_id o job b job', job_step job_id o job b job' -> P job -> P job') ->
  forall (w0 : world) (ops : list op),
    store w0 = Dict.empty ->
    forall job_id job, Dict.get (store (run ops w0)) job_id = Some job -> P job.
Proof.
  intros Hnew Hstep w0 ops Hempty.
  assert (Hgen : forall ops w,
             (forall job_id job, Dict.get (store w) job_id = Some job -> P job) ->
             forall job_id job, Dict.get (store (run ops w)) job_id = Some job -> P job).
  { clear w0 ops Hempty. induction ops as [|o ops IH]; intros w Hw; [exact Hw|].
    cbn [run]. apply IH. clear IH.
    destruct (exec_store_shape o w) as [-> | (job_id & job' & -> & Hjob')]; [exact Hw|].
    intros job_id0 job0. rewrite DictFacts.get_set.
    destruct (String.eqb job_id0 job_id); [|apply Hw].
    intros [= <-].
    destruct Hjob' as [(u & ps & vt & em & en & uuid4 & ts & now & ->)
                      | (job & b & Hget & Hjs)].
    - apply Hnew.
    - eapply Hstep; [exact Hjs|]. eapply Hw; exact Hget. }
  apply Hgen. rewrite Hempty. intros job_id job. discriminate.
Qed.

(** X11: the status of every job of a store built by the requests is ready,
    waiting or completed: no operation writes processing or error, the other
    two statuses that get_job_status knows. *)
Theorem statuses_written (w0 : world) (ops : list op) (job_id : string) (job : Job) :
  store w0 = Dict.empty ->
  Dict.get (store (run ops w0)) job_id = Some job ->
  written_status (status job)
  /\ status job <> "processing" /\ status job <> "error".
Proof.
  intros Hempty Hget.
  assert (Hw : written_status (status job)).
  { apply (reachable_jobs_ind (fun job => written_status (status job)))
      with (w0 := w0) (ops := ops) (job_id := job_id); try assumption.
    - intros. left. reflexivity.
    - intros j o job0 b job' [now1 now2 step_name Hnth | | now step_name Hnth] H0.
      + unfold advanced_job; cbn [status].
        destruct (length (pipeline job0) <=? current_step job0 + 1)%nat;
          [right; right|left]; reflexivity.
      + exact H0.
      + right. left. reflexivity. }
  split; [exact Hw|].
  destruct Hw as [-> | [-> | ->]]; split; discriminate.
Qed.

Lemma statuses_written_witness :
  written_status (status completed_job)
  /\ status completed_job <> "processing" /\ status completed_job <> "error".
Proof.
  apply (statuses_written initial_world scenario "a1b2c3d4" completed_job); reflexivity.
Defined.

Lemma mem_set (d : Dict.t string) (k k0 v : string) :
  Dict.mem (Dict.set d k v) k0 = String.eqb k0 k || Dict.mem d k0.
Proof.
  unfold Dict.mem. rewrite DictFacts.get_set.
  destruct (String.eqb k0 k); reflexivity.
Qed.

Lemma job_step_outputs_inv (job_id : string) (o : op) (job job' : Job) (b : bool) :
  job_step job_id o job b job' -> outputs_inv job -> outputs_inv job'.
Proof.
  intros [now1 now2 step_name Hnth | | now step_name Hnth] Hinv; [| exact Hinv | exact Hinv].
  intros k. unfold advanced_job; cbn [step_outputs current_step pipeline].
  rewrite mem_set. split.
  - intros Hmem. apply orb_prop in Hmem as [Heq | Hold].
    + apply String.eqb_eq in Heq. subst k. exists (current_step job). split; [lia|exact Hnth].
    + apply Hinv in Hold as (i & Hi & Hk). exists i. split; [lia|exact Hk].
  - intros (i & Hi & Hk). apply orb_true_intro.
    destruct (Nat.eq_dec i (current_step job)) as [->|Hne].
    + left. apply String.eqb_eq. congruence.
    + right. apply Hinv. exists i. split; [lia|exact Hk].
Qed.

(** X12: in a store built by the requests, the keys of step_outputs of a job
    are exactly the names of the steps already run (those before
    current_step in the pipeline); so once current_step has reached the end,
    every step of the pipeline has a recorded output. *)
Theorem step_outputs_keys (w0 : world) (ops : list op) (job_id : string) (job : Job) :
  store w0 = Dict.empty ->
  Dict.get (store (run ops w0)) job_id = Some job ->
  (forall k, Dict.mem (step_outputs job) k = true
             <-> exists i, i < current_step job /\ nth_error (pipeline job) i = Some k)
  /\ (current_step job = length (pipeline job) ->
      forall k, In k (pipeline job) -> exists out, Dict.get (step_outputs job) k = Some out).
Proof.
  intros Hempty Hget.
  assert (Hinv : outputs_inv job).
  { apply (reachable_jobs_ind outputs_inv)
      with (w0 := w0) (ops := ops) (job_id := job_id); try assumption.
    - intros. intros k. unfold new_job; cbn [step_outputs current_step pipeline].
      split; [discriminate|]. intros (i & Hi & _). lia.
    - intros j o job0 b job'. apply job_step_outputs_inv. }
  split; [exact Hinv|].
  intros Hall k Hin. apply In_nth_error in Hin as [i Hi].
  assert (Hmem : Dict.mem (step_outputs job) k = true).
  { apply Hinv. exists i. split; [|exact Hi].
    rewrite Hall. apply nth_error_Some. congruence. }
  unfold Dict.mem in Hmem.
  destruct (Dict.get (step_outputs job) k) as [out|]; [now exists out|discriminate].
Qed.

Lemma step_outputs_keys_witness :
  (forall k, Dict.mem (step_outputs completed_job) k = true
             <-> exists i, i < current_step completed_job
                           /\ nth_error (pipeline completed_job) i = Some k)
  /\ (current_step completed_job = length (pipeline completed_job) ->
      forall k, In k (pipeline completed_job) ->
                exists out, Dict.get (step_outputs completed_job) k = Some out).
Proof.
  apply (step_outputs_keys initial_world scenario "a1b2c3d4" completed_job); reflexivity.
Defined.

(** ** A job through later requests *)

Lemma job_step_done (job_id : string) (o : op) (job job' : Job) (b : bool) :
  job_step job_id o job b job' ->
  length (pipeline job) <= current_step job ->
  b = false /\ job' = job.
Proof.
  intros [now1 now2 step_name Hnth | | now step_name Hnth] Hle;
    [| now split |];
    exfalso; assert (current_step job < length (pipeline job))
      by (apply nth_error_Some; congruence); lia.
Qed.

Lemma run_done (job_id : string) (ops : list op) (w : world) (job : Job) :
  Dict.get (store w) job_id = Some job ->
  length (pipeline job) <= current_step job ->
  (forall o, In o ops -> draws o job_id = false) ->
  Dict.get (store (run ops w)) job_id = Some job.
Proof.
  revert w. induction ops as [|o ops IH]; intros w Hget Hle Hfresh; [exact Hget|].
  cbn [run]. apply IH; [|exact Hle|intros o' Hin; apply Hfresh; now right].
  destruct (exec_job o w job_id job Hget (Hfresh o (or_introl eq_refl)))
    as (job' & Hget' & Hstep).
  destruct (job_step_done _ _ _ _ _ Hstep Hle) as [_ ->]. exact Hget'.
Qed.

(** X13: completed is final.  In a store built by the requests, a completed
    job stays in the store exactly as it is, field for field, through every
    later sequence of requests that does not draw its id for a new job. *)
Theorem completed_job_is_frozen (w0 : world) (ops ops' : list op) (job_id : string)
    (job : Job) :
  store w0 = Dict.empty ->
  Dict.get (store (run ops w0)) job_id = Some job ->
  status job = "completed" ->
  never_draws job_id ops' = true ->
  Dict.get (store (run ops' (run ops w0))) job_id = Some job.
Proof.
  intros Hempty Hget Hstatus Hfresh.
  destruct (reachable_store_inv w0 ops Hempty job_id job Hget) as (_ & Hc & _).
  apply run_done; [exact Hget| rewrite (Hc Hstatus); apply Nat.le_refl|].
  now apply never_draws_In.
Qed.

Lemma completed_job_is_frozen_witness :
  Dict.get (store (run [GenerateColabLinks "a1b2c3d4" "12:05:00";
                        MarkStepComplete "a1b2c3d4" "late.mp4" "12:06:00" "12:06:01";
                        GetJobStatus; DownloadResult "a1b2c3d4"]
                       (run scenario initial_world))) "a1b2c3d4"
  = Some completed_job.
Proof.
  apply (completed_job_is_frozen initial_world scenario); reflexivity.
Defined.

Lemma job_step_logs (job_id : string) (o : op) (job job' : Job) (b : bool) :
  job_step job_id o job b job' ->
  exists added, logs job' = (logs job ++ added)%list.
Proof.
  intros [now1 now2 step_name Hnth | | now step_name Hnth].
  - unfold advanced_job; cbn [logs].
    destruct (length (pipeline job) <=? current_step job + 1)%nat.
    + eexists. rewrite <- app_assoc. reflexivity.
    + eexists. reflexivity.
  - exists []. now rewrite app_nil_r.
  - eexists. reflexivity.
Qed.

(** X14: through every sequence of requests that does not draw its id for a
    new job, a job keeps its id, creation time, pipeline, input file and
    parameters, and its log only grows: the old log is a prefix of the new
    one. *)
Theorem job_history (w : world) (ops : list op) (job_id : string) (job : Job) :
  Dict.get (store w) job_id = Some job ->
  never_draws job_id ops = true ->
  exists job' added,
    Dict.get (store (run ops w)) job_id = Some job'
    /\ id job' = id job /\ created job' = created job /\ pipeline job' = pipeline job
    /\ input (files job') = input (files job) /\ parameters job' = parameters job
    /\ logs job' = (logs job ++ added)%list.
Proof.
  intros Hget Hfresh. pose proof (never_draws_In job_id ops Hfresh) as Hin0.
  clear Hfresh. rename Hin0 into Hfresh.
  revert w job Hget Hfresh. induction ops as [|o ops IH]; intros w job Hget Hfresh.
  - exists job, []. rewrite app_nil_r. cbn [run]. repeat split; auto.
  - destruct (exec_job o w job_id job Hget (Hfresh o (or_introl eq_refl)))
      as (job1 & Hget1 & Hstep).
    destruct (IH (snd (exec o w)) job1 Hget1 (fun o' Hin => Hfresh o' (or_intror Hin)))
      as (job' & added' & Hget' & Hid & Hcr & Hp & Hin & Hpar & Hlogs).
    pose proof (job_step_fields _ _ _ _ _ Hstep)
      as (Hid1 & Hcr1 & Hp1 & Hin1 & Hpar1 & _).
    destruct (job_step_logs _ _ _ _ _ Hstep) as (added1 & Hlogs1).
    exists job', (added1 ++ added')%list. cbn [run].
    split; [exact Hget'|]. repeat (split; [congruence|]).
    rewrite Hlogs, Hlogs1. now rewrite app_assoc.
Qed.

Lemma job_history_witness :
  exists job' added,
    Dict.get (store (run (skipn 1 scenario) created_world)) "a1b2c3d4" = Some job'
    /\ id job' = id created_job /\ created job' = created created_job
    /\ pipeline job' = pipeline created_job
    /\ input (files job') = input (files created_job)
    /\ parameters job' = parameters created_job
    /\ logs job' = (logs created_job ++ added)%list.
Proof.
  apply (job_history created_world (skipn 1 scenario) "a1b2c3d4" created_job); reflexivity.
Defined.

(** X15: no request ever removes a job: an id that is in the store is still
    in the store after any sequence of requests. *)
Theorem jobs_are_never_removed (w : world) (ops : list op) (job_id : string) :
  Dict.mem (store w) job_id = true ->
  Dict.mem (store (run ops w)) job_id = true.
Proof.
  revert w. induction ops as [|o ops IH]; intros w Hmem; [exact Hmem|].
  cbn [run]. apply IH.
  destruct (exec_store_shape o w) as [-> | (job_id' & job' & -> & _)]; [exact Hmem|].
  unfold Dict.mem in *. rewrite DictFacts.get_set.
  destruct (String.eqb job_id job_id'); [reflexivity|exact Hmem].
Qed.

Lemma jobs_are_never_removed_witness :
  Dict.mem (store (run (skipn 1 scenario ++ one_step_scenario) created_world)) "a1b2c3d4"
  = true.
Proof.
  apply (jobs_are_never_removed created_world). reflexivity.
Defined.

(** ** The writes of a request *)

(** X16: get_job_status and download_result write nothing.  Every other
    request either leaves the world as it was or writes JOBS_FILE exactly
    once, at its end, with the store it leaves; only create_job adds a file,
    one, by one copy made before that write. *)
Theorem writes_of_a_request (o : op) (w : world) :
  let w' := snd (exec o w) in
  match o with
  | GetJobStatus | DownloadResult _ => w' = w
  | CreateJob _ _ _ _ _ _ _ _ =>
      w' = w
      \/ exists src dst jobs r,
           trace w' = (trace w ++ [Copy2 src dst; SaveJobs jobs])%list
           /\ existing w' = dst :: existing w
           /\ jobs_file w' = Some (mkDiskFile r (Json jobs))
  | GenerateColabLinks _ _ | MarkStepComplete _ _ _ _ =>
      w' = w
      \/ exists jobs r,
           trace w' = (trace w ++ [SaveJobs jobs])%list
           /\ existing w' = existing w
           /\ jobs_file w' = Some (mkDiskFile r (Json jobs))
  end.
Proof.
  intros w'. subst w'.
  destruct (exec_kind_of o w)
    as [Hsame
       | u ps vt em en uuid4 ts now Ho Ht Hsrc Hw'
       | job_id now job step_name Ho Hget Hnth Hw'
       | job_id out now1 now2 job step_name Ho Hget Hnth Hw'].
  - destruct o; auto.
  - subst o. right. rewrite Hw'. unfold copy2. rewrite Hsrc. cbn [snd].
    eexists _, _, _, _. unfold save_jobs; cbn [snd trace existing jobs_file].
    rewrite <- app_assoc. repeat split; reflexivity.
  - subst o. right. rewrite Hw'. eexists _, _.
    unfold save_jobs; cbn [snd trace existing jobs_file]. repeat split; reflexivity.
  - subst o. right. rewrite Hw'. eexists _, _.
    unfold save_jobs; cbn [snd trace existing jobs_file]. repeat split; reflexivity.
Qed.

(** ** Through the interface *)

Lemma check_progress_world (job_id : string) (w : world) :
  snd (check_progress job_id w) = w.
Proof.
  unfold check_progress. destruct (nonempty job_id); cbn [negb].
  - reflexivity.
  - apply get_job_status_world.
Qed.

(** Every click is served by one request that reports no output name, or
    changes nothing. *)
Lemma handle_kind (c : click) (w : world) :
  exists o, exec_kind o w (snd (handle c w)) /\ output_of o = EmptyString.
Proof.
  destruct c as [file_input pipeline_steps vt em en uuid4 timestamp now
                | job_id now | job_id | job_id now1 now2 | | job_id | ];
    cbn [handle];
    try (eexists; split; [apply exec_kind_of|reflexivity]).
  exists GetJobStatus. split; [|reflexivity].
  apply kind_same. rewrite snd_bind_ret. apply check_progress_world.
Qed.

Lemma exec_kind_upload_inv (o : op) (w w' : world) :
  exec_kind o w w' -> output_of o = EmptyString -> upload_inv w -> upload_inv w'.
Proof.
  intros [Hsame
         | u ps vt em en uuid4 ts now Ho Ht Hsrc Hw'
         | job_id now job step_name Ho Hget Hnth Hw'
         | job_id out now1 now2 job step_name Ho Hget Hnth Hw'] Hout Hinv.
  - now subst w'.
  - intros job_id0 job0. rewrite Hw', store_save, path_exists_save.
    unfold copy2. rewrite Hsrc. cbn [snd].
    rewrite visible_same_file.
    destruct (visible w); [|discriminate].
    rewrite DictFacts.get_set.
    destruct (String.eqb job_id0 (String.substring 0 8 uuid4)).
    + intros [= <-]. split; [reflexivity|].
      rewrite path_exists_cons. now rewrite String.eqb_refl.
    + intros Hget0. destruct (Hinv job_id0 job0 Hget0) as [Hcur Hex].
      split; [exact Hcur|]. rewrite path_exists_cons, Hex. apply orb_true_r.
  - intros job_id0 job0. rewrite Hw', store_save, path_exists_save.
    rewrite (get_store_visible w job_id job Hget), DictFacts.get_set.
    destruct (String.eqb job_id0 job_id).
    + intros [= <-]. exact (Hinv job_id job Hget).
    + apply Hinv.
  - subst o. cbn [output_of] in Hout. subst out.
    intros job_id0 job0. rewrite Hw', store_save, path_exists_save.
    rewrite (get_store_visible w job_id job Hget), DictFacts.get_set.
    destruct (String.eqb job_id0 job_id).
    + intros [= <-]. exact (Hinv job_id job Hget).
    + apply Hinv.
Qed.

Lemma serve_upload_inv (clicks : list click) (w : world) :
  upload_inv w -> upload_inv (serve clicks w).
Proof.
  revert w. induction clicks as [|c clicks IH]; intros w Hinv; [exact Hinv|].
  cbn [serve]. apply IH.
  destruct (handle_kind c w) as (o & Hkind & Hout).
  exact (exec_kind_upload_inv o w _ Hkind Hout Hinv).
Qed.

(** X17: on the page, the Mark Step Complete button reports a step without an
    output name.  So, starting from an empty store and as long as only the
    page changes the world, files.current of every job stays the copy of its
    upload, that copy is in OUTPUTS_DIR, and download_result for a completed
    job always returns the path of that copy: the operator downloads the file
    that was uploaded. *)
Theorem interface_serves_the_upload (w0 : world) (clicks : list click) (job_id : string)
    (job : Job) :
  store w0 = Dict.empty ->
  let w := serve clicks w0 in
  Dict.get (store w) job_id = Some job ->
  current (files job) = input (files job)
  /\ path_exists w (path_join OUTPUTS_DIR (current (files job))) = true
  /\ (status job = "completed" ->
      download_result job_id w
      = (Returned (Some (path_join OUTPUTS_DIR (input (files job)))), w)).
Proof.
  intros Hempty w Hget.
  assert (Hinv : upload_inv w).
  { apply serve_upload_inv. intros j0 job0. rewrite Hempty. discriminate. }
  destruct (Hinv job_id job Hget) as [Hcur Hex].
  split; [exact Hcur|]. split; [now rewrite Hcur|].
  intros Hstatus. unfold download_result. rewrite bind_load, Hget, Hstatus.
  rewrite String.eqb_refl. cbn [negb].
  rewrite Hcur, Hex. reflexivity.
Qed.

Lemma interface_serves_the_upload_witness :
  let w := serve page_session initial_world in
  current (files page_job) = input (files page_job)
  /\ path_exists w (path_join OUTPUTS_DIR (current (files page_job))) = true
  /\ (status page_job = "completed" ->
      download_result "a1b2c3d4" w
      = (Returned (Some (path_join OUTPUTS_DIR (input (files page_job)))), w)).
Proof.
  apply (interface_serves_the_upload initial_world page_session "a1b2c3d4" page_job);
    reflexivity.
Defined.

(** ** Output names that are absolute paths *)

(** X18: mark_step_complete stores the output name as it is given, and
    download_result joins it to OUTPUTS_DIR with os.path.join, which lets an
    absolute path stand for itself.  So when the last step of a job is
    reported with the absolute path of an existing file, download_result
    returns that path, outside OUTPUTS_DIR. *)
Theorem download_result_absolute_output (job_id rest now1 now2 : string) (w : world)
    (job : Job) :
  Dict.get (store w) job_id = Some job ->
  current_step job + 1 = length (pipeline job) ->
  path_exists w (String "/" rest) = true ->
  let w' := snd (mark_step_complete job_id (String "/" rest) now1 now2 w) in
  download_result job_id w' = (Returned (Some (String "/" rest)), w').
Proof.
  intros Hget Hlast Hex w'.
  assert (Hlt : current_step job < length (pipeline job)) by lia.
  destruct (nth_error_step job Hlt) as [step_name Hnth].
  assert (Hget' : Dict.get (store w') job_id
                  = Some (advanced_job job_id (String "/" rest) now1 now2 step_name job)).
  { subst w'. rewrite (mark_step_store job_id _ now1 now2 w job step_name Hget Hnth).
    apply DictFacts.get_set_eq. }
  assert (Hex' : path_exists w' (String "/" rest) = true).
  { subst w'.
    destruct (mark_step job_id (String "/" rest) now1 now2 w job step_name Hget Hnth)
      as [msg ->].
    cbn [snd]. now rewrite path_exists_save. }
  unfold download_result. rewrite bind_load, Hget'.
  unfold advanced_job; cbn [status files current nonempty].
  assert (Hle : (length (pipeline job) <=? current_step job + 1)%nat = true)
    by (apply Nat.leb_le; lia).
  rewrite Hle, String.eqb_refl. cbn [negb path_join]. now rewrite Hex'.
Qed.

Lemma download_result_absolute_output_witness :
  let w' := snd (mark_step_complete "a1b2c3d4" (String "/" "tmp/gradio/clip.mp4")
                   "12:02:00" "12:02:01"
                   (run (firstn 2 scenario) initial_world)) in
  download_result "a1b2c3d4" w'
  = (Returned (Some (String "/" "tmp/gradio/clip.mp4")), w').
Proof.
  apply (download_result_absolute_output "a1b2c3d4" "tmp/gradio/clip.mp4"
           "12:02:00" "12:02:01" (run (firstn 2 scenario) initial_world)
           (mkJob "a1b2c3d4" "20240101_120000" "ready" 1
                  ["Audio Enhancement"; "Video Enhancement"]
                  (mkFiles "a1b2c3d4_20240101_120000_input.mp4"
                           "a1b2c3d4_20240101_120000_input.mp4")
                  (mkParameters "hello" "neutral" "basic")
                  [("Audio Enhancement", "a1b2c3d4_step_0_output")]
                  ["12:00:00 - Job created"; "12:01:00 - Completed Audio Enhancement"]));
    reflexivity.
Defined.

(** ** The step value of the link *)



(** ** get_job_status without a usable JOBS_FILE *)

(** X20: when JOBS_FILE is missing, cannot be read or holds text that is not
    JSON, get_job_status does not raise: it answers that there are no jobs,
    and so does the Check Progress button pressed with no job id; neither
    writes anything. *)
Theorem get_job_status_without_index (w : world) :
  jobs_file w = None
  \/ (exists f, jobs_file w = Some f /\ (readable f = false \/ text f = NotJson)) ->
  get_job_status w = (Returned "No jobs found.", w)
  /\ check_progress EmptyString w = (Returned "No jobs found.", w).
Proof.
  intros Hbad.
  assert (Hempty : store w = Dict.empty).
  { unfold store, load_jobs, try_except, bind, open_read.
    destruct Hbad as [-> | (f & -> & Hf)]; [reflexivity|].
    destruct (readable f); [|reflexivity].
    destruct Hf as [Hr | ->]; [discriminate|reflexivity]. }
  assert (Hstatus : get_job_status w = (Returned "No jobs found.", w)).
  { unfold get_job_status. rewrite bind_load, Hempty. reflexivity. }
  split; [exact Hstatus|]. exact Hstatus.
Qed.

Lemma get_job_status_without_index_witness :
  get_job_status corrupt_world = (Returned "No jobs found.", corrupt_world)
  /\ check_progress EmptyString corrupt_world = (Returned "No jobs found.", corrupt_world).
Proof.
  apply (get_job_status_without_index corrupt_world).
  right. exists (mkDiskFile true NotJson). split; [reflexivity | right; reflexivity].
Defined.

(** ** step_outputs under mark_step_complete *)

Lemma length_set_mem (d : Dict.t string) (k v : string) :
  Dict.mem d k = true -> length (Dict.set d k v) = length d.
Proof.
  unfold Dict.mem. induction d as [|[k' v'] d IH]; cbn [Dict.get Dict.set].
  - discriminate.
  - destruct (String.eqb k k'); [reflexivity|].
    intros Hmem. cbn [length]. now rewrite IH.
Qed.

(** X21: mark_step_complete writes step_outputs under the name of the current
    step only: the outputs recorded under other names are kept.  step_outputs
    is keyed by step name, so when the name of the current step already has
    an output (the name occurs earlier in the pipeline), that output is
    replaced and no entry is added. *)
Theorem mark_step_complete_step_outputs (job_id output_filename now1 now2 : string)
    (w : world) (job : Job) (step_name : string) :
  Dict.get (store w) job_id = Some job ->
  nth_error (pipeline job) (current_step job) = Some step_name ->
  exists job',
    Dict.get (store (snd (mark_step_complete job_id output_filename now1 now2 w))) job_id
    = Some job'
    /\ Dict.get (step_outputs job') step_name
       = Some (if nonempty output_filename then output_filename
               else placeholder job_id (current_step job))
    /\ (forall other, other <> step_name ->
          Dict.get (step_outputs job') other = Dict.get (step_outputs job) other)
    /\ (Dict.mem (step_outputs job) step_name = true ->
        length (step_outputs job') = length (step_outputs job)).
Proof.
  intros Hget Hnth.
  exists (advanced_job job_id output_filename now1 now2 step_name job).
  rewrite (mark_step_store job_id output_filename now1 now2 w job step_name Hget Hnth).
  split; [apply DictFacts.get_set_eq|].
  unfold advanced_job; cbn [step_outputs].
  split; [apply DictFacts.get_set_eq|].
  split; [intros other Hne; now apply DictFacts.get_set_ne|].
  apply length_set_mem.
Qed.

Lemma mark_step_complete_step_outputs_witness :
  exists job',
    Dict.get (store (snd (mark_step_complete "0f0f0f0f" "second.wav" "09:02:00" "09:02:01"
                            repeated_step_world))) "0f0f0f0f"
    = Some job'
    /\ Dict.get (step_outputs job') "Audio Enhancement"
       = Some (if nonempty "second.wav" then "second.wav"
               else placeholder "0f0f0f0f" (current_step repeated_step_job))
    /\ (forall other, other <> "Audio Enhancement" ->
          Dict.get (step_outputs job') other = Dict.get (step_outputs repeated_step_job) other)
    /\ (Dict.mem (step_outputs repeated_step_job) "Audio Enhancement" = true ->
        length (step_outputs job') = length (step_outputs repeated_step_job)).
Proof.
  apply (mark_step_complete_step_outputs "0f0f0f0f" "second.wav" "09:02:00" "09:02:01"
           repeated_step_world repeated_step_job "Audio Enhancement"); reflexivity.
Defined.

(** ** The report after create_job *)

(** X22: after create_job has stored the first job of a store, get_job_status
    reports that job alone: its id, the status Ready, the progress 0 of the
    number of steps, and its creation time. *)
Theorem get_job_status_after_create (u : upload) (steps : list string)
    (vt em en uuid4 timestamp now : string) (w : world) :
  truthy (Some u) = true ->
  path_exists w (path u) = true ->
  visible w = true ->
  store w = Dict.empty ->
  let w' := snd (create_job (Some u) (Some steps) vt em en uuid4 timestamp now w) in
  get_job_status w'
  = (Returned ("⏳ **Job " ++ String.substring 0 8 uuid4 ++ "**" ++ nl
               ++ "   Status: Ready" ++ nl
               ++ "   Progress: 0/" ++ str_of_nat (length steps) ++ " steps" ++ nl
               ++ "   Created: " ++ timestamp ++ nl),
     w').
Proof.
  intros Ht Hsrc Hvis Hempty w'.
  assert (Hstore : store w' = [(String.substring 0 8 uuid4,
                                new_job u (Some steps) vt em en uuid4 timestamp now)]).
  { subst w'. rewrite create_job_store by assumption. now rewrite Hvis, Hempty. }
  unfold get_job_status. rewrite bind_load, Hstore. reflexivity.
Qed.

Lemma get_job_status_after_create_witness :
  let w' := snd (create_job (Some clip) (Some ["Audio Enhancement"; "Video Enhancement"])
                   "hello" "neutral" "basic" "a1b2c3d4-0000-4000-8000-000000000000"
                   "20240101_120000" "12:00:00" initial_world) in
  get_job_status w'
  = (Returned ("⏳ **Job "
               ++ String.substring 0 8 "a1b2c3d4-0000-4000-8000-000000000000" ++ "**" ++ nl
               ++ "   Status: Ready" ++ nl
               ++ "   Progress: 0/"
               ++ str_of_nat (length ["Audio Enhancement"; "Video Enhancement"])
               ++ " steps" ++ nl
               ++ "   Created: " ++ "20240101_120000" ++ nl),
     w').
Proof.
  apply (get_job_status_after_create clip ["Audio Enhancement"; "Video Enhancement"]
           "hello" "neutral" "basic" "a1b2c3d4-0000-4000-8000-000000000000"
           "20240101_120000" "12:00:00" initial_world); reflexivity.
Defined.
